(** * GameManager: the coordinator between the miner, the entity store and the ledger

    A shallow embedding of [src/Backend/GameLogic/GameManager.ts].

    The manager is a stateful object that talks to collaborators which are not
    part of the sources: the entity store ([GameObjects]), the ledger reader and
    writer ([ContractsAPI]), the proof generator ([SnarkArgsHelper]), the miner
    ([MinerManager]), the chunk store, the terminal and the notification
    manager.  The embedding keeps

    - the fields of the manager and the browser's [localStorage] in a record
      [State];
    - the entity store as an abstract state with the operations the manager
      calls on it (class [EntityStore]);
    - every call made to another collaborator in a log, [calls], oldest first;
    - JavaScript exceptions as the [Thrown] completion of a state monad.

    Coordinates, the world radius and timestamps are integer-valued doubles far
    below 2^53, where double arithmetic is exact; they are [Z] here.  The hash
    rate is the one genuine fraction; its arithmetic is the interface
    [JsNumber].

    Asynchronous code is cut at its promises.  The part of a method that runs
    before its first [await] is one definition, what runs when the promise
    settles is another one, which receives the settlement.  A listener that
    awaits reads of the ledger runs to its end in one piece, each read being
    answered by a snapshot [Ledger]; a read that rejects, and what other
    listeners do between two awaits, are outside the model.  [Date.now()] is
    an argument [now], read once per call. *)

From Stdlib Require Import ZArith Ascii String Lia.
From stdpp Require Import gmap strings list pretty.

Local Open Scope Z_scope.

(** ** Identifiers and plain data ([@darkforest_eth/types]) *)

Abbreviation LocationId := string (only parsing).
Abbreviation ArtifactId := string (only parsing).
Abbreviation VoyageId := string (only parsing).
Abbreviation EthAddress := string (only parsing).
Abbreviation ActionId := string (only parsing).
Abbreviation Error := string (only parsing).
Abbreviation SnarkArgs := (list Z) (only parsing).

(** JavaScript truthiness of a string: every string but the empty one. *)
Definition truthy (s : string) : bool :=
  match s with EmptyString => false | String _ _ => true end.


Record WorldCoords := { wc_x : Z; wc_y : Z }.

Record WorldLocation := {
  loc_coords : WorldCoords;
  loc_hash : LocationId;
  loc_perlin : Z;
  loc_biomebase : Z
}.

Record RevealedCoords := {
  rc_coords : WorldCoords;
  rc_hash : LocationId;
  rc_revealer : EthAddress
}.

Record RevealedLocation := {
  rl_location : WorldLocation;
  rl_revealer : EthAddress
}.

Record QueuedArrival := {
  eventId : VoyageId;
  fromPlanet : LocationId;
  toPlanet : LocationId
}.

(** [isActivated] of [ArtifactUtils] is not among the sources; the record
    carries its verdict. *)
Record Artifact := {
  art_id : ArtifactId;
  art_activated : bool
}.

Definition isActivated (a : Artifact) : bool := art_activated a.

Inductive EthTxType :=
| INIT | MOVE | UPGRADE | BUY_HAT | PLANET_TRANSFER | FIND_ARTIFACT
| PROSPECT_PLANET | DEPOSIT_ARTIFACT | WITHDRAW_ARTIFACT | ACTIVATE_ARTIFACT
| DEACTIVATE_ARTIFACT | REVEAL_LOCATION | WITHDRAW_SILVER.

(** A transaction intent: the union of the [Unconfirmed...] types, tagged by
    its [type].  Every intent starts with its [actionId]. *)
Inductive TxIntent :=
| UnconfirmedInit (actionId : ActionId) (locationId : LocationId)
    (location : WorldLocation)
| UnconfirmedMove (actionId : ActionId) (from to : LocationId)
    (forces silver : Z) (artifact : option ArtifactId)
| UnconfirmedUpgrade (actionId : ActionId) (locationId : LocationId)
    (upgradeBranch : Z)
| UnconfirmedBuyHat (actionId : ActionId) (locationId : LocationId)
| UnconfirmedPlanetTransfer (actionId : ActionId) (planetId : LocationId)
    (newOwner : EthAddress)
| UnconfirmedFindArtifact (actionId : ActionId) (planetId : LocationId)
| UnconfirmedProspectPlanet (actionId : ActionId) (planetId : LocationId)
| UnconfirmedDepositArtifact (actionId : ActionId) (locationId : LocationId)
    (artifactId : ArtifactId)
| UnconfirmedWithdrawArtifact (actionId : ActionId) (locationId : LocationId)
    (artifactId : ArtifactId)
| UnconfirmedActivateArtifact (actionId : ActionId) (locationId : LocationId)
    (artifactId : ArtifactId) (wormholeTo : option LocationId)
| UnconfirmedDeactivateArtifact (actionId : ActionId) (locationId : LocationId)
    (artifactId : ArtifactId)
| UnconfirmedReveal (actionId : ActionId) (locationId : LocationId)
    (location : WorldLocation)
| UnconfirmedWithdrawSilver (actionId : ActionId) (locationId : LocationId)
    (amount : Z).

Definition intent_type (t : TxIntent) : EthTxType :=
  match t with
  | UnconfirmedInit _ _ _ => INIT
  | UnconfirmedMove _ _ _ _ _ _ => MOVE
  | UnconfirmedUpgrade _ _ _ => UPGRADE
  | UnconfirmedBuyHat _ _ => BUY_HAT
  | UnconfirmedPlanetTransfer _ _ _ => PLANET_TRANSFER
  | UnconfirmedFindArtifact _ _ => FIND_ARTIFACT
  | UnconfirmedProspectPlanet _ _ => PROSPECT_PLANET
  | UnconfirmedDepositArtifact _ _ _ => DEPOSIT_ARTIFACT
  | UnconfirmedWithdrawArtifact _ _ _ => WITHDRAW_ARTIFACT
  | UnconfirmedActivateArtifact _ _ _ _ => ACTIVATE_ARTIFACT
  | UnconfirmedDeactivateArtifact _ _ _ => DEACTIVATE_ARTIFACT
  | UnconfirmedReveal _ _ _ => REVEAL_LOCATION
  | UnconfirmedWithdrawSilver _ _ _ => WITHDRAW_SILVER
  end.

(** A submitted transaction is its intent together with the transport handle. *)
Record SubmittedTx := {
  tx_intent : TxIntent;
  txHash : string
}.

Record Planet := {
  p_locationId : LocationId;
  p_owner : EthAddress;
  p_location : option WorldLocation;
  p_coordsRevealed : bool;
  p_unconfirmedReveal : option TxIntent;
  p_heldArtifactIds : list ArtifactId;
  p_lastUpdated : Z
}.

Record Player := {
  pl_address : EthAddress;
  lastRevealTimestamp : Z
}.

Record ChunkFootprint := {
  bottomLeft : WorldCoords;
  sideLength : Z
}.

Record Chunk := {
  chunkFootprint : ChunkFootprint;
  planetLocations : list WorldLocation
}.

Inductive MiningPattern :=
| SpiralPattern (center : WorldCoords) (chunkSize : Z)
| SwissCheesePattern (center : WorldCoords) (chunkSize : Z).

(** The miner is a handle; its own state lives in [MinerManager]. *)
Variant MinerManager := MinerManagerHandle.

(** ** Calls to the collaborators *)

(** Reads of the ledger ([ContractsAPI]). *)
Inductive LedgerRead :=
| GetPlanetById (planetId : LocationId)
| GetArrivalsForPlanet (planetId : LocationId)
| BulkGetArtifactsOnPlanets (planetIds : list LocationId)
| GetRevealedCoordsByIdIfExists (planetId : LocationId)
| GetAllArrivals (planetIds : list LocationId)
| BulkGetPlanets (planetIds : list LocationId)
| GetArtifactById (artifactId : ArtifactId).

(** Writes to the ledger ([ContractsAPI]). *)
Inductive LedgerWrite :=
| WReveal (snarkArgs : SnarkArgs) (txIntent : TxIntent)
| WMove (actionId : ActionId) (callArgs : SnarkArgs) (shipsMoved silverMoved : Z)
    (artifactMoved : option ArtifactId)
| WProspectPlanet (planetId : LocationId) (actionId : ActionId)
| WFindArtifact (location : WorldLocation) (snarkArgs : SnarkArgs)
    (actionId : ActionId)
| WDepositArtifact (txIntent : TxIntent)
| WWithdrawArtifact (txIntent : TxIntent)
| WActivateArtifact (txIntent : TxIntent)
| WDeactivateArtifact (txIntent : TxIntent)
| WWithdrawSilver (txIntent : TxIntent)
| WUpgradePlanet (planetId : LocationId) (branch : Z) (actionId : ActionId)
| WBuyHat (planetId : LocationId) (hatLevel : Z) (actionId : ActionId)
| WTransferOwnership (planetId : LocationId) (newOwner : EthAddress)
    (actionId : ActionId).

Inductive SnarkCall :=
| GetRevealArgs (x y : Z)
| GetFindArtifactArgs (x y : Z)
| GetMoveArgs (oldX oldY newX newY r distMax : Z).

Inductive ChunkStoreCall :=
| OnEthTxSubmit (tx : SubmittedTx)
| OnEthTxComplete (hash : string)
| AddChunk (chunk : Chunk) (persist : bool).

(** What the terminal is asked to show. *)
Inductive TerminalOut :=
| TxSubmitLine (tx : SubmittedTx)
| TxConfirmLine (tx : SubmittedTx)
| TxRevertLine (tx : SubmittedTx)
| IntentErrorLine (e : Error)
| GameEndedLine
| SnarkArgsLines (kind : EthTxType) (args : SnarkArgs)
| SendingLine (kind : EthTxType).

Inductive Notification :=
| NTxSubmit (tx : SubmittedTx)
| NTxConfirm (tx : SubmittedTx)
| NTxRevert (tx : SubmittedTx)
| NUnsubmittedTxFail (txIntent : TxIntent) (e : Error).

Inductive MinerCall :=
| MStartExplore
| MStopExplore
| MSetRadius (r : Z)
| MSetMiningPattern (p : MiningPattern).

Inductive Call :=
| CRead (r : LedgerRead)
| CWrite (w : LedgerWrite)
| CSnark (s : SnarkCall)
| CChunkStore (c : ChunkStoreCall)
| CTerminal (t : TerminalOut)
| CNotify (n : Notification)
| CMiner (m : MinerCall)
| CEmitDiscoveredNewChunk (chunk : Chunk)
| CConsoleError (msg : string).


Definition is_write (c : Call) : bool :=
  match c with CWrite _ => true | _ => false end.

Definition is_snark (c : Call) : bool :=
  match c with CSnark _ => true | _ => false end.

(** ** The collaborators' interfaces *)

(** The arithmetic of JavaScript numbers that the hash rate needs: numeric
    literals, [**] and [/]. *)
Class JsNumber (number : Type) := {
  num_lit : Z -> number;
  num_pow : number -> number -> number;
  num_div : number -> number -> number
}.

(** The operations of the entity store that the manager calls.  [GameObjects]
    is not among the sources; its state is the abstract type [G].  The two
    lookups that return a planet may bring it up to date first, so they return
    the store as well; the first argument of each is the current time. *)
Class EntityStore (G : Type) := {
  es_getPlanetWithId : Z -> LocationId -> bool -> G -> option Planet * G;
  es_getPlanetWithLocation : Z -> WorldLocation -> G -> option Planet * G;
  es_getLocationOfPlanet : LocationId -> G -> option WorldLocation;
  es_getArtifactById : ArtifactId -> G -> option Artifact;
  es_getUnconfirmedReveal : G -> option TxIntent;
  es_isPlanetInContract : LocationId -> G -> bool;
  es_addPlanetLocation : WorldLocation -> G -> G;
  es_onTxIntent : TxIntent -> G -> G;
  es_clearUnconfirmedTxIntent : TxIntent -> G -> G;
  es_replacePlanetFromContractData :
    Planet -> option (list QueuedArrival) -> option (list ArtifactId) ->
    option RevealedLocation -> G -> G;
  es_replaceArtifactFromContractData : Artifact -> G -> G;
  es_replaceArtifactsFromContractData : list Artifact -> G -> G;
  (** the observation behind the [unconfirmed...] flags: is this intent
      recorded as pending? *)
  es_isUnconfirmed : TxIntent -> G -> bool
}.

(** The injected hash functions ([@darkforest_eth/hashing]). *)
Class HashOracle := {
  planetHashMimc : Z -> Z -> LocationId;
  spaceTypePerlin : WorldCoords -> bool -> Z;
  biomebasePerlin : WorldCoords -> bool -> Z
}.

(** A snapshot of the ledger: what its reader answers. *)
Record Ledger := {
  l_planet : LocationId -> option Planet;
  l_planets : list LocationId -> gmap LocationId Planet;
  l_arrivals : LocationId -> list QueuedArrival;
  l_allArrivals : list LocationId -> list QueuedArrival;
  l_artifactsOn : LocationId -> list Artifact;
  l_revealedCoords : LocationId -> option RevealedCoords;
  l_artifact : ArtifactId -> option Artifact
}.

(** ** The monad of the manager's methods *)

Inductive Completion (A : Type) :=
| Normal (a : A)
| Thrown (e : Error).
Arguments Normal {A} a.
Arguments Thrown {A} e.

Definition M (S A : Type) : Type := S -> Completion A * S.

#[global] Instance M_ret {S} : MRet (M S) := fun A a s => (Normal a, s).

#[global] Instance M_bind {S} : MBind (M S) := fun A B f m s =>
  match m s with
  | (Normal a, s') => f a s'
  | (Thrown e, s') => (Thrown e, s')
  end.

Definition throw {S A} (e : Error) : M S A := fun s => (Thrown e, s).

Definition gets {S A} (f : S -> A) : M S A := fun s => (Normal (f s), s).

Definition modify {S} (f : S -> S) : M S unit := fun s => (Normal tt, f s).

(** [for (const a of l) body(a)] *)
Fixpoint forM_ {S A} (l : list A) (body : A -> M S unit) : M S unit :=
  match l with
  | [] => mret tt
  | a :: l' => body a ;; forM_ l' body
  end.

Definition exec {S A} (m : M S A) (s : S) : S := snd (m s).
Definition result {S A} (m : M S A) (s : S) : Completion A := fst (m s).

(** How a promise settles. *)
Inductive Settled (A : Type) :=
| Resolved (a : A)
| Rejected (e : Error).
Arguments Resolved {A} a.
Arguments Rejected {A} e.

Definition throws {A} (c : Completion A) : bool :=
  match c with Thrown _ => true | Normal _ => false end.

(** ** The state of the manager *)

(** The fields of [GameManager] that the embedded methods use, the browser's
    [localStorage], the log of calls and the list [scheduled] of the planet
    refreshes that were started without being awaited. *)
Record State (number G : Type) := {
  entityStore : G;
  account : option EthAddress;
  players : gmap EthAddress Player;
  hashRate : number;
  worldRadius : Z;
  minerManager : option MinerManager;
  terminal : bool;
  LOCATION_REVEAL_COOLDOWN : Z;
  localStorage : gmap string string;
  calls : list Call;
  scheduled : list LocationId
}.
Arguments entityStore {number G} s.
Arguments account {number G} s.
Arguments players {number G} s.
Arguments hashRate {number G} s.
Arguments worldRadius {number G} s.
Arguments minerManager {number G} s.
Arguments terminal {number G} s.
Arguments LOCATION_REVEAL_COOLDOWN {number G} s.
Arguments localStorage {number G} s.
Arguments calls {number G} s.
Arguments scheduled {number G} s.

Definition endTimeSeconds : Z := 1643587533.

Definition lower_ascii (c : ascii) : ascii :=
  let n := N_of_ascii c in
  if ((65 <=? n) && (n <=? 90))%N then ascii_of_N (n + 32) else c.

Fixpoint toLowerCase (s : string) : string :=
  match s with
  | EmptyString => EmptyString
  | String c r => String (lower_ascii c) (toLowerCase r)
  end.

Section Manager.
Context {number : Type} `{JsNumber number}.
Context {G : Type} `{EntityStore G}.
Context `{HashOracle}.

Local Abbreviation St := (State number G).

Definition set_entityStore (g : G) (s : St) : St :=
  {| entityStore := g; account := account s; players := players s;
     hashRate := hashRate s; worldRadius := worldRadius s;
     minerManager := minerManager s; terminal := terminal s;
     LOCATION_REVEAL_COOLDOWN := LOCATION_REVEAL_COOLDOWN s;
     localStorage := localStorage s; calls := calls s;
     scheduled := scheduled s |}.

Definition set_hashRate (h : number) (s : St) : St :=
  {| entityStore := entityStore s; account := account s; players := players s;
     hashRate := h; worldRadius := worldRadius s;
     minerManager := minerManager s; terminal := terminal s;
     LOCATION_REVEAL_COOLDOWN := LOCATION_REVEAL_COOLDOWN s;
     localStorage := localStorage s; calls := calls s;
     scheduled := scheduled s |}.

Definition set_worldRadius (r : Z) (s : St) : St :=
  {| entityStore := entityStore s; account := account s; players := players s;
     hashRate := hashRate s; worldRadius := r;
     minerManager := minerManager s; terminal := terminal s;
     LOCATION_REVEAL_COOLDOWN := LOCATION_REVEAL_COOLDOWN s;
     localStorage := localStorage s; calls := calls s;
     scheduled := scheduled s |}.

Definition set_localStorage (l : gmap string string) (s : St) : St :=
  {| entityStore := entityStore s; account := account s; players := players s;
     hashRate := hashRate s; worldRadius := worldRadius s;
     minerManager := minerManager s; terminal := terminal s;
     LOCATION_REVEAL_COOLDOWN := LOCATION_REVEAL_COOLDOWN s;
     localStorage := l; calls := calls s;
     scheduled := scheduled s |}.

Definition set_calls (c : list Call) (s : St) : St :=
  {| entityStore := entityStore s; account := account s; players := players s;
     hashRate := hashRate s; worldRadius := worldRadius s;
     minerManager := minerManager s; terminal := terminal s;
     LOCATION_REVEAL_COOLDOWN := LOCATION_REVEAL_COOLDOWN s;
     localStorage := localStorage s; calls := c;
     scheduled := scheduled s |}.

Definition set_scheduled (l : list LocationId) (s : St) : St :=
  {| entityStore := entityStore s; account := account s; players := players s;
     hashRate := hashRate s; worldRadius := worldRadius s;
     minerManager := minerManager s; terminal := terminal s;
     LOCATION_REVEAL_COOLDOWN := LOCATION_REVEAL_COOLDOWN s;
     localStorage := localStorage s; calls := calls s;
     scheduled := l |}.

(** *** Primitive actions *)

(** A call to a collaborator, appended to the log. *)
Definition call (c : Call) : M St unit :=
  modify (fun s => set_calls (calls s ++ [c]) s).

(** [this.terminal.current?.print...(...)] *)
Definition terminalDo (t : TerminalOut) : M St unit :=
  present ← gets terminal;
  if present : bool then call (CTerminal t) else mret tt.

(** A mutating method of the entity store. *)
Definition store (f : G -> G) : M St unit :=
  modify (fun s => set_entityStore (f (entityStore s)) s).

(** A method of the entity store that returns a value and may update the
    store. *)
Definition storeGet {A} (f : G -> A * G) : M St A :=
  fun s => let '(a, g) := f (entityStore s) in (Normal a, set_entityStore g s).

(** A getter of the entity store. *)
Definition storeRead {A} (f : G -> A) : M St A :=
  gets (fun s => f (entityStore s)).

(** [`${this.getAccount()?.toLowerCase()}-suffix`] *)
Definition accountKey (suffix : string) : M St string :=
  acc ← gets account;
  mret ((match acc with Some a => toLowerCase a | None => "undefined" end)
          +:+ "-" +:+ suffix).

(** [localStorage.setItem(`${account}-suffix`, value)] *)
Definition setItem (suffix value : string) : M St unit :=
  k ← accountKey suffix;
  modify (fun s => set_localStorage (<[k := value]> (localStorage s)) s).

(** *** Refreshing entities from the ledger *)

(** [await this.contractsAPI.bulkGetArtifactsOnPlanets(planetIds)]: one list
    of artifacts per requested planet, in the order of the request. *)
Definition bulkGetArtifactsOnPlanets (ledger : Ledger)
    (planetIds : list LocationId) : list (list Artifact) :=
  l_artifactsOn ledger <$> planetIds.

Definition locationFromCoords (coords : WorldCoords) : WorldLocation :=
  {| loc_coords := coords;
     loc_hash := planetHashMimc (wc_x coords) (wc_y coords);
     loc_perlin := spaceTypePerlin coords true;
     loc_biomebase := biomebasePerlin coords true |}.

(** The "dirty hack for only refreshing properties on a planet and nothing
    else". *)
Definition softRefreshPlanet (ledger : Ledger) (planetId : LocationId)
    : M St unit :=
  call (CRead (GetPlanetById planetId));;
  match l_planet ledger planetId with
  | None => mret tt
  | Some planet =>
      store (es_replacePlanetFromContractData planet None None None)
  end.

(** [hardRefreshPlanet] up to its first [await]: the read is issued. *)
Definition hardRefreshPlanet_start (planetId : LocationId) : M St unit :=
  call (CRead (GetPlanetById planetId)).

(** [hardRefreshPlanet] from the answer to its first read on. *)
Definition hardRefreshPlanet_resume (ledger : Ledger) (planetId : LocationId)
    : M St unit :=
  match l_planet ledger planetId with
  | None => mret tt
  | Some planet =>
      call (CRead (GetArrivalsForPlanet planetId));;
      let arrivals := l_arrivals ledger planetId in
      call (CRead (BulkGetArtifactsOnPlanets [planetId]));;
      let artifactsOnPlanets := bulkGetArtifactsOnPlanets ledger [planetId] in
      let artifactsOnPlanet := artifactsOnPlanets !! 0%nat in
      call (CRead (GetRevealedCoordsByIdIfExists planetId));;
      let revealedLocation :=
        match l_revealedCoords ledger planetId with
        | Some revealedCoords =>
            Some {| rl_location := locationFromCoords (rc_coords revealedCoords);
                    rl_revealer := rc_revealer revealedCoords |}
        | None => None
        end in
      match artifactsOnPlanet with
      | None => throw "TypeError: artifactsOnPlanet is undefined"
      | Some artifactsOnPlanet =>
          store (es_replacePlanetFromContractData planet (Some arrivals)
                   (Some (art_id <$> artifactsOnPlanet)) revealedLocation);;
          forM_ artifactsOnPlanet
            (fun a => store (es_replaceArtifactFromContractData a))
      end
  end.

Definition hardRefreshPlanet (ledger : Ledger) (planetId : LocationId)
    : M St unit :=
  hardRefreshPlanet_start planetId;;
  hardRefreshPlanet_resume ledger planetId.

(** [voyagesForToPlanet.push(voyage)] for the voyages whose destination is
    among the planets to update. *)
Definition addVoyage (m : gmap LocationId (list QueuedArrival))
    (voyage : QueuedArrival) : gmap LocationId (list QueuedArrival) :=
  match m !! toPlanet voyage with
  | Some voyagesForToPlanet =>
      <[toPlanet voyage := voyagesForToPlanet ++ [voyage]]> m
  | None => m
  end.

Definition bulkHardRefreshPlanets_start (planetIds : list LocationId)
    : M St unit :=
  call (CRead (GetAllArrivals planetIds)).

Definition bulkHardRefreshPlanets_resume (ledger : Ledger)
    (planetIds : list LocationId) : M St unit :=
  let allVoyages := l_allArrivals ledger planetIds in
  call (CRead (BulkGetPlanets planetIds));;
  let planetsToUpdateMap := l_planets ledger planetIds in
  call (CRead (BulkGetArtifactsOnPlanets planetIds));;
  let artifactsOnPlanets := bulkGetArtifactsOnPlanets ledger planetIds in
  let planetVoyageMap :=
    foldl addVoyage ((fun _ => []) <$> planetsToUpdateMap) allVoyages in
  forM_ (zip (seq 0 (length planetIds)) planetIds) (fun '(i, planetId) =>
    match planetsToUpdateMap !! planetId with
    | None => mret tt
    | Some planet =>
        match planetVoyageMap !! p_locationId planet with
        | None => mret tt
        | Some voyagesForPlanet =>
            match artifactsOnPlanets !! i with
            | None => throw "TypeError: artifactsOnPlanets[i] is undefined"
            | Some artifacts =>
                store (es_replacePlanetFromContractData planet
                         (Some voyagesForPlanet) (Some (art_id <$> artifacts))
                         None)
            end
        end
    end);;
  forM_ artifactsOnPlanets
    (fun artifacts => store (es_replaceArtifactsFromContractData artifacts)).

Definition bulkHardRefreshPlanets (ledger : Ledger)
    (planetIds : list LocationId) : M St unit :=
  bulkHardRefreshPlanets_start planetIds;;
  bulkHardRefreshPlanets_resume ledger planetIds.

Definition hardRefreshArtifact_start (artifactId : ArtifactId) : M St unit :=
  call (CRead (GetArtifactById artifactId)).

Definition hardRefreshArtifact_resume (ledger : Ledger)
    (artifactId : ArtifactId) : M St unit :=
  match l_artifact ledger artifactId with
  | None => mret tt
  | Some artifact => store (es_replaceArtifactFromContractData artifact)
  end.

Definition hardRefreshArtifact (ledger : Ledger) (artifactId : ArtifactId)
    : M St unit :=
  hardRefreshArtifact_start artifactId;;
  hardRefreshArtifact_resume ledger artifactId.

(** *** Reporting the life of a transaction *)

Definition onTxSubmit (unminedTx : SubmittedTx) : M St unit :=
  terminalDo (TxSubmitLine unminedTx);;
  call (CNotify (NTxSubmit unminedTx)).

Definition onTxConfirmed (unminedTx : SubmittedTx) : M St unit :=
  terminalDo (TxConfirmLine unminedTx);;
  call (CNotify (NTxConfirm unminedTx)).

Definition onTxReverted (unminedTx : SubmittedTx) : M St unit :=
  terminalDo (TxRevertLine unminedTx);;
  call (CNotify (NTxRevert unminedTx)).

Definition onTxIntentFail (txIntent : TxIntent) (e : Error) : M St unit :=
  call (CNotify (NUnsubmittedTxFail txIntent e));;
  terminalDo (IntentErrorLine e);;
  store (es_clearUnconfirmedTxIntent txIntent).

(** *** The listeners that [create] registers on the ledger's events *)

Definition TxSubmitted_listener (unconfirmedTx : SubmittedTx) : M St unit :=
  call (CChunkStore (OnEthTxSubmit unconfirmedTx));;
  onTxSubmit unconfirmedTx.

(** [if (unconfirmedTx.artifact)] *)
Definition movedArtifact (artifact : option ArtifactId) : option ArtifactId :=
  match artifact with
  | Some a => if truthy a then Some a else None
  | None => None
  end.

(** The [if ... else if ...] chain of the listener of [TxConfirmed].  Its
    type guards ([isUnconfirmedReveal], [isUnconfirmedMove], ...;
    [TypeAssertions] is not among the sources) are the case analysis on the
    intent's tag.  [Promise.all] of two refreshes that were both started is
    the schedule in which the first one finishes before the second. *)
Definition refetchPlan (ledger : Ledger) (txIntent : TxIntent) : M St unit :=
  match txIntent with
  | UnconfirmedReveal _ locationId _ => hardRefreshPlanet ledger locationId
  | UnconfirmedMove _ from to _ _ artifact =>
      bulkHardRefreshPlanets_start [from; to];;
      match movedArtifact artifact with
      | Some artifactId =>
          hardRefreshArtifact_start artifactId;;
          bulkHardRefreshPlanets_resume ledger [from; to];;
          hardRefreshArtifact_resume ledger artifactId
      | None => bulkHardRefreshPlanets_resume ledger [from; to]
      end
  | UnconfirmedUpgrade _ locationId _ => hardRefreshPlanet ledger locationId
  | UnconfirmedBuyHat _ locationId => hardRefreshPlanet ledger locationId
  | UnconfirmedInit _ locationId _ => hardRefreshPlanet ledger locationId
  | UnconfirmedFindArtifact _ planetId => hardRefreshPlanet ledger planetId
  | UnconfirmedDepositArtifact _ locationId artifactId =>
      hardRefreshPlanet_start locationId;;
      hardRefreshArtifact_start artifactId;;
      hardRefreshPlanet_resume ledger locationId;;
      hardRefreshArtifact_resume ledger artifactId
  | UnconfirmedWithdrawArtifact _ locationId artifactId =>
      hardRefreshPlanet ledger locationId;;
      hardRefreshArtifact ledger artifactId
  | UnconfirmedProspectPlanet _ planetId => softRefreshPlanet ledger planetId
  | UnconfirmedActivateArtifact _ locationId artifactId _ =>
      hardRefreshPlanet_start locationId;;
      hardRefreshArtifact_start artifactId;;
      hardRefreshPlanet_resume ledger locationId;;
      hardRefreshArtifact_resume ledger artifactId
  | UnconfirmedDeactivateArtifact _ locationId artifactId =>
      hardRefreshPlanet_start locationId;;
      hardRefreshArtifact_start artifactId;;
      hardRefreshPlanet_resume ledger locationId;;
      hardRefreshArtifact_resume ledger artifactId
  | UnconfirmedWithdrawSilver _ locationId _ =>
      softRefreshPlanet ledger locationId
  | UnconfirmedPlanetTransfer _ _ _ => mret tt
  end.

Definition TxConfirmed_listener (ledger : Ledger) (unconfirmedTx : SubmittedTx)
    : M St unit :=
  call (CChunkStore (OnEthTxComplete (txHash unconfirmedTx)));;
  refetchPlan ledger (tx_intent unconfirmedTx);;
  store (es_clearUnconfirmedTxIntent (tx_intent unconfirmedTx));;
  onTxConfirmed unconfirmedTx.

Definition TxReverted_listener (unconfirmedTx : SubmittedTx) : M St unit :=
  store (es_clearUnconfirmedTxIntent (tx_intent unconfirmedTx));;
  call (CChunkStore (OnEthTxComplete (txHash unconfirmedTx)));;
  onTxReverted unconfirmedTx.

(** *** Reading the store *)

(** [planetId && this.entityStore.getPlanetWithId(planetId)]: the store's
    parameter [updateIfStale] is left at its default, [true]. *)
Definition getPlanetWithId (now : Z) (planetId : option LocationId)
    : M St (option Planet) :=
  match planetId with
  | Some id =>
      if truthy id then storeGet (es_getPlanetWithId now id true)
      else mret None
  | None => mret None
  end.

Definition getStalePlanetWithId (now : Z) (planetId : LocationId)
    : M St (option Planet) :=
  storeGet (es_getPlanetWithId now planetId false).

Definition getHashesPerSec : M St number := gets hashRate.

(** *** Driving the miner *)

Definition startExplore : M St unit :=
  miner ← gets minerManager;
  match miner with
  | Some _ => call (CMiner MStartExplore)
  | None => mret tt
  end.

Definition stopExplore : M St unit :=
  miner ← gets minerManager;
  match miner with
  | Some _ =>
      modify (set_hashRate (num_lit 0));;
      call (CMiner MStopExplore)
  | None => mret tt
  end.

Definition setRadius (worldRadius : Z) : M St unit :=
  modify (set_worldRadius worldRadius);;
  miner ← gets minerManager;
  match miner with
  | Some _ => call (CMiner (MSetRadius worldRadius))
  | None => mret tt
  end.

Definition setMiningPattern (pattern : MiningPattern) : M St unit :=
  miner ← gets minerManager;
  match miner with
  | Some _ => call (CMiner (MSetMiningPattern pattern))
  | None => mret tt
  end.

(** *** Chunks *)

(** [this.hardRefreshPlanet(hash)] without [await]: the refresh is started,
    its first read is issued, and the rest is left to run later. *)
Definition schedule (planetId : LocationId) : M St unit :=
  hardRefreshPlanet_start planetId;;
  modify (fun s => set_scheduled (scheduled s ++ [planetId]) s).

(** The body of the loop of [addNewChunk]. *)
Definition addNewChunk_body (planetLocation : WorldLocation) : M St unit :=
  store (es_addPlanetLocation planetLocation);;
  inContract ← storeRead (es_isPlanetInContract (loc_hash planetLocation));
  if inContract : bool then schedule (loc_hash planetLocation)
  else mret tt.

Definition addNewChunk (chunk : Chunk) : M St unit :=
  call (CChunkStore (AddChunk chunk true));;
  forM_ (planetLocations chunk) addNewChunk_body.

(** A refresh that [addNewChunk] started goes on once the ledger answers. *)
Definition resumeScheduled (ledger : Ledger) : M St unit :=
  pending ← gets scheduled;
  match pending with
  | [] => mret tt
  | planetId :: rest =>
      modify (set_scheduled rest);;
      hardRefreshPlanet_resume ledger planetId
  end.

(** The listener that [initMiningManager] registers for the miner's
    [DiscoveredNewChunk] event. *)
Definition DiscoveredNewChunk_listener (chunk : Chunk) (miningTimeMillis : Z)
    : M St unit :=
  addNewChunk chunk;;
  modify (set_hashRate
    (num_div (num_pow (num_lit (sideLength (chunkFootprint chunk))) (num_lit 2))
             (num_div (num_lit miningTimeMillis) (num_lit 1000))));;
  call (CEmitDiscoveredNewChunk chunk).

(** *** Making transactions *)

(** [Date.now() / 1000 > this.endTimeSeconds] *)
Definition pastEndTime (now : Z) : bool := endTimeSeconds * 1000 <? now.

Definition checkGameHasEnded (now : Z) : M St bool :=
  if pastEndTime now then terminalDo GameEndedLine;; mret true
  else mret false.

Definition zero_is_falsy (t : option Z) : option Z :=
  match t with
  | Some 0 => None
  | other => other
  end.

(** [this.players.get(this.account)?.lastRevealTimestamp], as a condition:
    [undefined] and [0] are falsy. *)
Definition myLastRevealTimestamp (account : EthAddress) : M St (option Z) :=
  gets (fun s => zero_is_falsy (lastRevealTimestamp <$> players s !! account)).

Definition getNextBroadcastAvailableTimestamp (now : Z) : M St Z :=
  acc ← gets account;
  match acc with
  | None => throw "no account set"
  | Some account =>
      last ← myLastRevealTimestamp account;
      match last with
      | None => mret now
      | Some myLastRevealTimestamp =>
          cooldown ← gets LOCATION_REVEAL_COOLDOWN;
          mret ((myLastRevealTimestamp + cooldown) * 1000)
      end
  end.

Definition handleTxIntent (txIntent : TxIntent) : M St unit :=
  store (es_onTxIntent txIntent).

(** [revealLocation] up to the call of the proof generator; [actionId] is
    the value of [getRandomActionId()]. *)
Definition revealLocation (now : Z) (actionId : ActionId)
    (planetId : LocationId) : M St unit :=
  ended ← checkGameHasEnded now;
  if ended : bool then mret tt else
  acc ← gets account;
  match acc with
  | None => throw "no account set"
  | Some account =>
  planet ← storeGet (es_getPlanetWithId now planetId true);
  match planet with
  | None => throw "you can't reveal a planet you haven't discovered"
  | Some planet =>
  match p_location planet with (* isLocatable(planet) *)
  | None => throw "you can't reveal a planet whose coordinates you don't know"
  | Some location =>
  if p_coordsRevealed planet
  then throw "this planet's location is already revealed" else
  if bool_decide (is_Some (p_unconfirmedReveal planet))
  then throw "you're already revealing this planet's location" else
  unconfirmedReveal ← storeRead es_getUnconfirmedReveal;
  if bool_decide (is_Some unconfirmedReveal)
  then throw "you're already broadcasting coordinates" else
  last ← myLastRevealTimestamp account;
  onCooldown ← match last with
               | None => mret false
               | Some _ =>
                   next ← getNextBroadcastAvailableTimestamp now;
                   mret (now <? next)
               end;
  if onCooldown : bool then throw "still on cooldown for broadcasting" else
  setItem "revealLocationId" planetId;;
  let txIntent := UnconfirmedReveal actionId planetId location in
  handleTxIntent txIntent;;
  call (CSnark (GetRevealArgs (wc_x (loc_coords location))
                              (wc_y (loc_coords location))))
  end end end.

(** [.catch((e) => this.onTxIntentFail(txIntent, e))] on the promise of a
    ledger write. *)
Definition catchIntentFail (txIntent : TxIntent) (written : Settled unit)
    : M St unit :=
  match written with
  | Resolved _ => mret tt
  | Rejected e => onTxIntentFail txIntent e
  end.

(** What [revealLocation] chained on the proof: [.then] prints the proof and
    calls the writer, [.catch] takes a failure of either. *)
Definition revealLocation_settled (txIntent : TxIntent)
    (proof : Settled SnarkArgs) (written : Settled unit) : M St unit :=
  match proof with
  | Resolved snarkArgs =>
      terminalDo (SnarkArgsLines REVEAL_LOCATION (take 3 snarkArgs));;
      call (CWrite (WReveal snarkArgs txIntent));;
      catchIntentFail txIntent written
  | Rejected err => onTxIntentFail txIntent err
  end.

(** [move] up to the call of the proof generator. *)
Definition move (now : Z) (actionId : ActionId) (from to : LocationId)
    (forces silver : Z) (artifactMoved : option ArtifactId)
    (bypassChecks : bool) : M St unit :=
  ended ← checkGameHasEnded now;
  if ended : bool then mret tt else
  setItem "fromPlanet" from;;
  setItem "toPlanet" to;;
  if negb bypassChecks && pastEndTime now
  then terminalDo GameEndedLine else
  oldLocation ← storeRead (es_getLocationOfPlanet from);
  newLocation ← storeRead (es_getLocationOfPlanet to);
  match oldLocation with
  | None => call (CConsoleError "tried to move from planet that does not exist")
  | Some oldLocation =>
  match newLocation with
  | None => call (CConsoleError "tried to move from planet that does not exist")
  | Some newLocation =>
  let oldX := wc_x (loc_coords oldLocation) in
  let oldY := wc_y (loc_coords oldLocation) in
  let newX := wc_x (loc_coords newLocation) in
  let newY := wc_y (loc_coords newLocation) in
  let xDiff := newX - oldX in
  let yDiff := newY - oldY in
  let distMax := Z.sqrt_up (xDiff ^ 2 + yDiff ^ 2) in
  let shipsMoved := forces in
  let silverMoved := silver in
  radius ← gets worldRadius;
  if radius ^ 2 <=? newX ^ 2 + newY ^ 2
  then throw "attempted to move out of bounds" else
  oldPlanet ← storeGet (es_getPlanetWithLocation now oldLocation);
  acc ← gets account;
  match oldPlanet with
  | None => throw "attempted to move from a planet not owned by player"
  | Some oldPlanet =>
  if (negb bypassChecks && bool_decide (acc = None))
     || bool_decide (Some (p_owner oldPlanet) ≠ acc)
  then throw "attempted to move from a planet not owned by player" else
  artifactField ←
    match movedArtifact artifactMoved with
    | Some artifactId =>
        artifact ← storeRead (es_getArtifactById artifactId);
        (if bypassChecks then mret tt else
         match artifact with
         | None => throw "couldn't find this artifact"
         | Some artifact =>
             if isActivated artifact
             then throw "can't move an activated artifact" else
             if bool_decide (artifactId ∈ p_heldArtifactIds oldPlanet)
             then mret tt
             else throw "that artifact isn't on this planet!"
         end);;
        mret (Some artifactId)
    | None => mret None
    end;
  let txIntent :=
    UnconfirmedMove actionId (loc_hash oldLocation) (loc_hash newLocation)
      shipsMoved silverMoved artifactField in
  handleTxIntent txIntent;;
  call (CSnark (GetMoveArgs oldX oldY newX newY radius distMax))
  end end end.

Definition move_settled (txIntent : TxIntent) (actionId : ActionId)
    (shipsMoved silverMoved : Z) (artifactMoved : option ArtifactId)
    (proof : Settled SnarkArgs) (written : Settled unit) : M St unit :=
  match proof with
  | Resolved callArgs =>
      terminalDo (SnarkArgsLines MOVE callArgs);;
      call (CWrite (WMove actionId callArgs shipsMoved silverMoved
                      artifactMoved));;
      catchIntentFail txIntent written
  | Rejected err => onTxIntentFail txIntent err
  end.

Definition findArtifact_settled (txIntent : TxIntent) (actionId : ActionId)
    (location : WorldLocation) (proof : Settled SnarkArgs)
    (written : Settled unit) : M St unit :=
  match proof with
  | Resolved snarkArgs =>
      terminalDo (SnarkArgsLines FIND_ARTIFACT (take 3 snarkArgs));;
      call (CWrite (WFindArtifact location snarkArgs actionId));;
      catchIntentFail txIntent written
  | Rejected err => onTxIntentFail txIntent err
  end.

(** The methods that hand their intent to the writer at once, from
    [handleTxIntent] on.  Each ends in
    [contractsAPI.<write>(...).catch((e) => this.onTxIntentFail(txIntent, e))];
    [announce] tells whether the terminal is told that the transaction is
    being sent. *)
Definition submitIntent (txIntent : TxIntent) (announce : bool)
    (write : LedgerWrite) (written : Settled unit) : M St unit :=
  handleTxIntent txIntent;;
  (if announce then terminalDo (SendingLine (intent_type txIntent))
   else mret tt);;
  call (CWrite write);;
  catchIntentFail txIntent written.

Definition prospectPlanet_submit (actionId : ActionId) (planetId : LocationId)
    (written : Settled unit) : M St unit :=
  submitIntent (UnconfirmedProspectPlanet actionId planetId) false
    (WProspectPlanet planetId actionId) written.

Definition depositArtifact_submit (actionId : ActionId)
    (locationId : LocationId) (artifactId : ArtifactId)
    (written : Settled unit) : M St unit :=
  let txIntent := UnconfirmedDepositArtifact actionId locationId artifactId in
  submitIntent txIntent true (WDepositArtifact txIntent) written.

Definition withdrawArtifact_submit (actionId : ActionId)
    (locationId : LocationId) (artifactId : ArtifactId)
    (written : Settled unit) : M St unit :=
  let txIntent := UnconfirmedWithdrawArtifact actionId locationId artifactId in
  submitIntent txIntent true (WWithdrawArtifact txIntent) written.

Definition activateArtifact_submit (actionId : ActionId)
    (locationId : LocationId) (artifactId : ArtifactId)
    (wormholeTo : option LocationId) (written : Settled unit) : M St unit :=
  let txIntent :=
    UnconfirmedActivateArtifact actionId locationId artifactId wormholeTo in
  submitIntent txIntent false (WActivateArtifact txIntent) written.

Definition deactivateArtifact_submit (actionId : ActionId)
    (locationId : LocationId) (artifactId : ArtifactId)
    (written : Settled unit) : M St unit :=
  let txIntent :=
    UnconfirmedDeactivateArtifact actionId locationId artifactId in
  submitIntent txIntent false (WDeactivateArtifact txIntent) written.

Definition withdrawSilver_submit (actionId : ActionId)
    (locationId : LocationId) (amount : Z) (written : Settled unit)
    : M St unit :=
  let txIntent := UnconfirmedWithdrawSilver actionId locationId amount in
  submitIntent txIntent false (WWithdrawSilver txIntent) written.

Definition upgrade_submit (actionId : ActionId) (planetId : LocationId)
    (branch : Z) (written : Settled unit) : M St unit :=
  submitIntent (UnconfirmedUpgrade actionId planetId branch) true
    (WUpgradePlanet planetId branch actionId) written.

Definition buyHat_submit (actionId : ActionId) (planetId : LocationId)
    (hatLevel : Z) (written : Settled unit) : M St unit :=
  submitIntent (UnconfirmedBuyHat actionId planetId) true
    (WBuyHat planetId hatLevel actionId) written.

Definition transferOwnership_submit (actionId : ActionId)
    (planetId : LocationId) (newOwner : EthAddress) (written : Settled unit)
    : M St unit :=
  submitIntent (UnconfirmedPlanetTransfer actionId planetId newOwner) false
    (WTransferOwnership planetId newOwner actionId) written.

(** *** Everything that happens to the manager *)

(** The calls and events that the embedding covers, each with its inputs. *)
Inductive Event :=
| EvTxSubmitted (tx : SubmittedTx)
| EvTxConfirmed (ledger : Ledger) (tx : SubmittedTx)
| EvTxReverted (tx : SubmittedTx)
| EvDiscoveredNewChunk (chunk : Chunk) (miningTimeMillis : Z)
| EvAddNewChunk (chunk : Chunk)
| EvResumeScheduled (ledger : Ledger)
| EvStartExplore
| EvStopExplore
| EvSetRadius (worldRadius : Z)
| EvSetMiningPattern (pattern : MiningPattern)
| EvGetHashesPerSec
| EvGetPlanetWithId (now : Z) (planetId : option LocationId)
| EvGetStalePlanetWithId (now : Z) (planetId : LocationId)
| EvRevealLocation (now : Z) (actionId : ActionId) (planetId : LocationId)
| EvRevealSettled (txIntent : TxIntent) (proof : Settled SnarkArgs)
    (written : Settled unit)
| EvMove (now : Z) (actionId : ActionId) (from to : LocationId)
    (forces silver : Z) (artifactMoved : option ArtifactId)
    (bypassChecks : bool)
| EvMoveSettled (txIntent : TxIntent) (actionId : ActionId)
    (shipsMoved silverMoved : Z) (artifactMoved : option ArtifactId)
    (proof : Settled SnarkArgs) (written : Settled unit)
| EvFindArtifactSettled (txIntent : TxIntent) (actionId : ActionId)
    (location : WorldLocation) (proof : Settled SnarkArgs)
    (written : Settled unit)
| EvProspectPlanet (actionId : ActionId) (planetId : LocationId)
    (written : Settled unit)
| EvDepositArtifact (actionId : ActionId) (locationId : LocationId)
    (artifactId : ArtifactId) (written : Settled unit)
| EvWithdrawArtifact (actionId : ActionId) (locationId : LocationId)
    (artifactId : ArtifactId) (written : Settled unit)
| EvActivateArtifact (actionId : ActionId) (locationId : LocationId)
    (artifactId : ArtifactId) (wormholeTo : option LocationId)
    (written : Settled unit)
| EvDeactivateArtifact (actionId : ActionId) (locationId : LocationId)
    (artifactId : ArtifactId) (written : Settled unit)
| EvWithdrawSilver (actionId : ActionId) (locationId : LocationId)
    (amount : Z) (written : Settled unit)
| EvUpgrade (actionId : ActionId) (planetId : LocationId) (branch : Z)
    (written : Settled unit)
| EvBuyHat (actionId : ActionId) (planetId : LocationId) (hatLevel : Z)
    (written : Settled unit)
| EvTransferOwnership (actionId : ActionId) (planetId : LocationId)
    (newOwner : EthAddress) (written : Settled unit).

Definition void {A} (m : M St A) : M St unit := m ;; mret tt.

Definition run (ev : Event) : M St unit :=
  match ev with
  | EvTxSubmitted tx => TxSubmitted_listener tx
  | EvTxConfirmed ledger tx => TxConfirmed_listener ledger tx
  | EvTxReverted tx => TxReverted_listener tx
  | EvDiscoveredNewChunk chunk ms => DiscoveredNewChunk_listener chunk ms
  | EvAddNewChunk chunk => addNewChunk chunk
  | EvResumeScheduled ledger => resumeScheduled ledger
  | EvStartExplore => startExplore
  | EvStopExplore => stopExplore
  | EvSetRadius r => setRadius r
  | EvSetMiningPattern p => setMiningPattern p
  | EvGetHashesPerSec => void getHashesPerSec
  | EvGetPlanetWithId now planetId => void (getPlanetWithId now planetId)
  | EvGetStalePlanetWithId now planetId =>
      void (getStalePlanetWithId now planetId)
  | EvRevealLocation now actionId planetId =>
      revealLocation now actionId planetId
  | EvRevealSettled txIntent proof written =>
      revealLocation_settled txIntent proof written
  | EvMove now actionId from to forces silver artifactMoved bypassChecks =>
      move now actionId from to forces silver artifactMoved bypassChecks
  | EvMoveSettled txIntent actionId ships silver artifact proof written =>
      move_settled txIntent actionId ships silver artifact proof written
  | EvFindArtifactSettled txIntent actionId location proof written =>
      findArtifact_settled txIntent actionId location proof written
  | EvProspectPlanet actionId planetId written =>
      prospectPlanet_submit actionId planetId written
  | EvDepositArtifact actionId locationId artifactId written =>
      depositArtifact_submit actionId locationId artifactId written
  | EvWithdrawArtifact actionId locationId artifactId written =>
      withdrawArtifact_submit actionId locationId artifactId written
  | EvActivateArtifact actionId locationId artifactId wormholeTo written =>
      activateArtifact_submit actionId locationId artifactId wormholeTo written
  | EvDeactivateArtifact actionId locationId artifactId written =>
      deactivateArtifact_submit actionId locationId artifactId written
  | EvWithdrawSilver actionId locationId amount written =>
      withdrawSilver_submit actionId locationId amount written
  | EvUpgrade actionId planetId branch written =>
      upgrade_submit actionId planetId branch written
  | EvBuyHat actionId planetId hatLevel written =>
      buyHat_submit actionId planetId hatLevel written
  | EvTransferOwnership actionId planetId newOwner written =>
      transferOwnership_submit actionId planetId newOwner written
  end.

(** The state after an event; an exception leaves the state as it was when
    it was thrown. *)
Definition step (s : St) (ev : Event) : St := exec (run ev) s.

Definition steps (s : St) (evs : list Event) : St := foldl step s evs.

Definition isDiscovery (ev : Event) : bool :=
  match ev with EvDiscoveredNewChunk _ _ => true | _ => false end.

(** A submission that fails before the ledger has the transaction: the
    proof generator rejects, or the writer's promise does.  The intent and
    the error of such an event. *)
Definition submitFailure (ev : Event) : option (TxIntent * Error) :=
  let ofProof txIntent (proof : Settled SnarkArgs) (written : Settled unit) :=
    match proof, written with
    | Rejected e, _ => Some (txIntent, e)
    | Resolved _, Rejected e => Some (txIntent, e)
    | Resolved _, Resolved _ => None
    end in
  let ofWrite txIntent (written : Settled unit) :=
    match written with
    | Rejected e => Some (txIntent, e)
    | Resolved _ => None
    end in
  match ev with
  | EvRevealSettled txIntent proof written => ofProof txIntent proof written
  | EvMoveSettled txIntent _ _ _ _ proof written =>
      ofProof txIntent proof written
  | EvFindArtifactSettled txIntent _ _ proof written =>
      ofProof txIntent proof written
  | EvProspectPlanet actionId planetId written =>
      ofWrite (UnconfirmedProspectPlanet actionId planetId) written
  | EvDepositArtifact actionId locationId artifactId written =>
      ofWrite (UnconfirmedDepositArtifact actionId locationId artifactId)
        written
  | EvWithdrawArtifact actionId locationId artifactId written =>
      ofWrite (UnconfirmedWithdrawArtifact actionId locationId artifactId)
        written
  | EvActivateArtifact actionId locationId artifactId wormholeTo written =>
      ofWrite (UnconfirmedActivateArtifact actionId locationId artifactId
                 wormholeTo) written
  | EvDeactivateArtifact actionId locationId artifactId written =>
      ofWrite (UnconfirmedDeactivateArtifact actionId locationId artifactId)
        written
  | EvWithdrawSilver actionId locationId amount written =>
      ofWrite (UnconfirmedWithdrawSilver actionId locationId amount) written
  | EvUpgrade actionId planetId branch written =>
      ofWrite (UnconfirmedUpgrade actionId planetId branch) written
  | EvBuyHat actionId planetId _ written =>
      ofWrite (UnconfirmedBuyHat actionId planetId) written
  | EvTransferOwnership actionId planetId newOwner written =>
      ofWrite (UnconfirmedPlanetTransfer actionId planetId newOwner) written
  | _ => None
  end.

(** The calls that an event added to the log. *)
Definition newCalls (s s' : St) : list Call :=
  drop (length (calls s)) (calls s').

(** *** What the manager expects of the entity store *)

(** [clearUnconfirmedTxIntent] unsets the flag of its intent. *)
Definition ClearUnsets : Prop :=
  forall (txIntent : TxIntent) (g : G),
    es_isUnconfirmed txIntent (es_clearUnconfirmedTxIntent txIntent g) = false.

(** The ids known to be on the ledger are kept apart from the locations
    that mining finds. *)
Definition AddLocationKeepsContract : Prop :=
  forall (location : WorldLocation) (id : LocationId) (g : G),
    es_isPlanetInContract id (es_addPlanetLocation location g)
    = es_isPlanetInContract id g.


(** Bringing a planet up to date does not touch the pending reveal. *)
Definition LookupKeepsReveal : Prop :=
  forall (now : Z) (id : LocationId) (upd : bool) (g : G),
    es_getUnconfirmedReveal (snd (es_getPlanetWithId now id upd g))
    = es_getUnconfirmedReveal g.
End Manager.

(** ** A model of the numbers *)

(** Double arithmetic without rounding: the fractions in lowest terms, the two
    infinities and NaN.  It serves to evaluate the hash rate on examples. *)
Inductive ExactNumber :=
| Fin (num : Z) (den : positive)
| Infinity (negative : bool)
| NaN.

(** [n / d] in lowest terms with a positive denominator. *)
Definition fraction (n d : Z) : ExactNumber :=
  if d =? 0 then (if n =? 0 then NaN else Infinity (n <? 0))
  else
    let g := Z.gcd n d in
    Fin (Z.sgn d * n / g) (Z.to_pos (Z.sgn d * d / g)).

Definition exact_lit (z : Z) : ExactNumber := Fin z 1.

Definition exact_div (a b : ExactNumber) : ExactNumber :=
  match a, b with
  | NaN, _ | _, NaN => NaN
  | Infinity _, Infinity _ => NaN
  | Infinity n, Fin c _ => Infinity (xorb n (c <? 0))
  | Fin _ _, Infinity _ => Fin 0 1
  | Fin a b, Fin c d => fraction (a * Z.pos d) (Z.pos b * c)
  end.

(** [a ** b] for an exponent that is a natural number; the exact model has no
    other powers. *)
Definition exact_pow (a b : ExactNumber) : ExactNumber :=
  match a, b with
  | Fin a b, Fin 0 _ => Fin 1 1
  | Fin a b, Fin (Z.pos n) 1 => Fin (a ^ Z.pos n) (b ^ n)
  | _, _ => NaN
  end.

#[global] Instance ExactNumber_JsNumber : JsNumber ExactNumber :=
  {| num_lit := exact_lit; num_pow := exact_pow; num_div := exact_div |}.

(** ** A model of the entity store *)

Definition intent_actionId (t : TxIntent) : ActionId :=
  match t with
  | UnconfirmedInit a _ _ | UnconfirmedMove a _ _ _ _ _
  | UnconfirmedUpgrade a _ _ | UnconfirmedBuyHat a _
  | UnconfirmedPlanetTransfer a _ _ | UnconfirmedFindArtifact a _
  | UnconfirmedProspectPlanet a _ | UnconfirmedDepositArtifact a _ _
  | UnconfirmedWithdrawArtifact a _ _ | UnconfirmedActivateArtifact a _ _ _
  | UnconfirmedDeactivateArtifact a _ _ | UnconfirmedReveal a _ _
  | UnconfirmedWithdrawSilver a _ _ => a
  end.

(** The planet on which a reveal is pending. *)
Definition revealTarget (t : TxIntent) : option LocationId :=
  match t with
  | UnconfirmedReveal _ locationId _ => Some locationId
  | _ => None
  end.

(** Modelled from the spec: the state of the entity store with its intent
    tracker ([GameObjects], which is not among the sources): one record per
    planet and artifact id, the locations found by mining, the "touched ids"
    known to be on the ledger, and the intents that are unconfirmed. *)
Record GameObjects := {
  go_planets : gmap LocationId Planet;
  go_locations : gmap LocationId WorldLocation;
  go_artifacts : gmap ArtifactId Artifact;
  go_touchedPlanetIds : gset LocationId;
  go_unconfirmedReveal : option TxIntent;
  go_unconfirmed : gmap ActionId TxIntent
}.

Definition go_set_planets (m : gmap LocationId Planet) (g : GameObjects)
    : GameObjects :=
  {| go_planets := m; go_locations := go_locations g;
     go_artifacts := go_artifacts g;
     go_touchedPlanetIds := go_touchedPlanetIds g;
     go_unconfirmedReveal := go_unconfirmedReveal g;
     go_unconfirmed := go_unconfirmed g |}.

Definition p_set_lastUpdated (t : Z) (p : Planet) : Planet :=
  {| p_locationId := p_locationId p; p_owner := p_owner p;
     p_location := p_location p; p_coordsRevealed := p_coordsRevealed p;
     p_unconfirmedReveal := p_unconfirmedReveal p;
     p_heldArtifactIds := p_heldArtifactIds p; p_lastUpdated := t |}.

Definition p_set_unconfirmedReveal (r : option TxIntent) (p : Planet) : Planet :=
  {| p_locationId := p_locationId p; p_owner := p_owner p;
     p_location := p_location p; p_coordsRevealed := p_coordsRevealed p;
     p_unconfirmedReveal := r;
     p_heldArtifactIds := p_heldArtifactIds p;
     p_lastUpdated := p_lastUpdated p |}.

Definition p_set_location (l : option WorldLocation) (p : Planet) : Planet :=
  {| p_locationId := p_locationId p; p_owner := p_owner p;
     p_location := l; p_coordsRevealed := p_coordsRevealed p;
     p_unconfirmedReveal := p_unconfirmedReveal p;
     p_heldArtifactIds := p_heldArtifactIds p;
     p_lastUpdated := p_lastUpdated p |}.

(** Modelled from the spec: bringing a stale planet up to date ("time-based
    resource growth").  The growth of the resources is not in the sources; the
    model moves the planet's time stamp, in seconds, to the current time. *)
Definition updatePlanetIfStale (now : Z) (p : Planet) : Planet :=
  if p_lastUpdated p <? now / 1000 then p_set_lastUpdated (now / 1000) p else p.

(** Modelled from the spec: [GameObjects.getPlanetWithId(planetId,
    updateIfStale = true)], which is not among the sources.  The lookup by id
    is the spec's [getEntity].  The second parameter and its effect are those
    that the manager's own code shows: [getStalePlanetWithId] passes [false],
    and the documentation of [getPlanetWithId], which leaves the default, says
    "If the planet needs to be updated (because some time has passed since we
    last updated the planet), then updates that planet first". *)
Definition go_getPlanetWithId (now : Z) (planetId : LocationId)
    (updateIfStale : bool) (g : GameObjects) : option Planet * GameObjects :=
  match go_planets g !! planetId with
  | None => (None, g)
  | Some planet =>
      if updateIfStale
      then let planet' := updatePlanetIfStale now planet in
           (Some planet', go_set_planets (<[planetId := planet']> (go_planets g)) g)
      else (Some planet, g)
  end.

(** Modelled from the spec: [GameObjects.getPlanetWithLocation], the planet
    whose id is the location's hash, brought up to date. *)
Definition go_getPlanetWithLocation (now : Z) (location : WorldLocation)
    (g : GameObjects) : option Planet * GameObjects :=
  go_getPlanetWithId now (loc_hash location) true g.

(** Modelled from the spec: [GameObjects.addPlanetLocation] records a mined
    location and makes it the location of the planet with that id, if there is
    one; the touched ids are a separate set and stay as they are. *)
Definition go_addPlanetLocation (location : WorldLocation) (g : GameObjects)
    : GameObjects :=
  {| go_planets :=
       alter (p_set_location (Some location)) (loc_hash location) (go_planets g);
     go_locations := <[loc_hash location := location]> (go_locations g);
     go_artifacts := go_artifacts g;
     go_touchedPlanetIds := go_touchedPlanetIds g;
     go_unconfirmedReveal := go_unconfirmedReveal g;
     go_unconfirmed := go_unconfirmed g |}.

(** Modelled from the spec: [applyIntent] sets the flag of the intent.  The
    manager makes the duplicate check itself before it calls [onTxIntent]. *)
Definition go_onTxIntent (txIntent : TxIntent) (g : GameObjects) : GameObjects :=
  {| go_planets :=
       match revealTarget txIntent with
       | Some id => alter (p_set_unconfirmedReveal (Some txIntent)) id (go_planets g)
       | None => go_planets g
       end;
     go_locations := go_locations g;
     go_artifacts := go_artifacts g;
     go_touchedPlanetIds := go_touchedPlanetIds g;
     go_unconfirmedReveal :=
       match revealTarget txIntent with
       | Some _ => Some txIntent
       | None => go_unconfirmedReveal g
       end;
     go_unconfirmed := <[intent_actionId txIntent := txIntent]> (go_unconfirmed g) |}.

(** Modelled from the spec: [clearIntent] "unconditionally unsets the flag
    regardless of whether the outcome was confirm or revert; idempotent". *)
Definition go_clearUnconfirmedTxIntent (txIntent : TxIntent) (g : GameObjects)
    : GameObjects :=
  {| go_planets :=
       match revealTarget txIntent with
       | Some id => alter (p_set_unconfirmedReveal None) id (go_planets g)
       | None => go_planets g
       end;
     go_locations := go_locations g;
     go_artifacts := go_artifacts g;
     go_touchedPlanetIds := go_touchedPlanetIds g;
     go_unconfirmedReveal :=
       match revealTarget txIntent with
       | Some _ => None
       | None => go_unconfirmedReveal g
       end;
     go_unconfirmed := delete (intent_actionId txIntent) (go_unconfirmed g) |}.

(** Modelled from the spec: the ledger replace "overwrites an entity's fields
    with the authoritative snapshot, but must preserve any optimistic flags";
    the location found by mining is local knowledge and is kept as well.  The
    id is then known to be on the ledger. *)
Definition go_replacePlanetFromContractData (planet : Planet)
    (arrivals : option (list QueuedArrival))
    (artifactIds : option (list ArtifactId))
    (revealedLocation : option RevealedLocation) (g : GameObjects)
    : GameObjects :=
  let id := p_locationId planet in
  let local := go_planets g !! id in
  let merged :=
    {| p_locationId := id; p_owner := p_owner planet;
       p_location :=
         match revealedLocation with
         | Some r => Some (rl_location r)
         | None => local ≫= p_location
         end;
       p_coordsRevealed :=
         match revealedLocation with
         | Some _ => true
         | None => p_coordsRevealed planet
         end;
       p_unconfirmedReveal := local ≫= p_unconfirmedReveal;
       p_heldArtifactIds := default (p_heldArtifactIds planet) artifactIds;
       p_lastUpdated := p_lastUpdated planet |} in
  {| go_planets := <[id := merged]> (go_planets g);
     go_locations :=
       match revealedLocation with
       | Some r => <[id := rl_location r]> (go_locations g)
       | None => go_locations g
       end;
     go_artifacts := go_artifacts g;
     go_touchedPlanetIds := {[id]} ∪ go_touchedPlanetIds g;
     go_unconfirmedReveal := go_unconfirmedReveal g;
     go_unconfirmed := go_unconfirmed g |}.

(** Modelled from the spec: the ledger replace of an artifact. *)
Definition go_replaceArtifactFromContractData (artifact : Artifact)
    (g : GameObjects) : GameObjects :=
  {| go_planets := go_planets g; go_locations := go_locations g;
     go_artifacts := <[art_id artifact := artifact]> (go_artifacts g);
     go_touchedPlanetIds := go_touchedPlanetIds g;
     go_unconfirmedReveal := go_unconfirmedReveal g;
     go_unconfirmed := go_unconfirmed g |}.

#[global] Instance GameObjects_EntityStore : EntityStore GameObjects := {|
  es_getPlanetWithId := go_getPlanetWithId;
  es_getPlanetWithLocation := go_getPlanetWithLocation;
  es_getLocationOfPlanet := fun id g => go_locations g !! id;
  es_getArtifactById := fun id g => go_artifacts g !! id;
  es_getUnconfirmedReveal := go_unconfirmedReveal;
  es_isPlanetInContract := fun id g => bool_decide (id ∈ go_touchedPlanetIds g);
  es_addPlanetLocation := go_addPlanetLocation;
  es_onTxIntent := go_onTxIntent;
  es_clearUnconfirmedTxIntent := go_clearUnconfirmedTxIntent;
  es_replacePlanetFromContractData := go_replacePlanetFromContractData;
  es_replaceArtifactFromContractData := go_replaceArtifactFromContractData;
  es_replaceArtifactsFromContractData := fun artifacts g =>
    foldl (fun g a => go_replaceArtifactFromContractData a g) g artifacts;
  es_isUnconfirmed := fun txIntent g =>
    bool_decide (is_Some (go_unconfirmed g !! intent_actionId txIntent))
|}.

(** A hash oracle for the examples: the id of a coordinate is fixed, the
    noise is flat. *)
#[global] Instance demoOracle : HashOracle := {|
  planetHashMimc := fun _ _ => "00aa";
  spaceTypePerlin := fun _ _ => 0;
  biomebasePerlin := fun _ _ => 0
|}.

(** ** What a method does to the state, in summary *)

Section Summaries.
Context {number : Type} `{JsNumber number}.
Context {G : Type} `{EntityStore G}.
Context `{HashOracle}.

Local Abbreviation St := (State number G).

(** [m] leaves the observation [f] of the state as it is, however it
    completes. *)
Definition Keeps {A B} (f : St -> B) (m : M St A) : Prop :=
  forall s, f (exec m s) = f s.

(** [m] returns normally, adds exactly the ledger reads [reads] to the log
    and changes nothing else but the entity store. *)
Definition Reads (m : M St unit) (reads : list LedgerRead) : Prop :=
  forall s, exists g,
    m s = (Normal tt, set_calls (calls s ++ (CRead <$> reads))
                        (set_entityStore g s)).

(** The reads of a hard refresh of one planet: the planet itself and, when
    the ledger has it, its voyages, its artifacts and its revealed
    coordinates. *)
Definition planetReads (ledger : Ledger) (planetId : LocationId)
    : list LedgerRead :=
  match l_planet ledger planetId with
  | None => []
  | Some _ =>
      [GetArrivalsForPlanet planetId; BulkGetArtifactsOnPlanets [planetId];
       GetRevealedCoordsByIdIfExists planetId]
  end.

Definition bulkReads (planetIds : list LocationId) : list LedgerRead :=
  [BulkGetPlanets planetIds; BulkGetArtifactsOnPlanets planetIds].

(** The ledger reads among the calls. *)
Definition readsIn (l : list Call) : list LedgerRead :=
  omap (fun c => match c with CRead r => Some r | _ => None end) l.


(** The store after the locations of a chunk were added. *)
Definition addLocations (g : G) (locations : list WorldLocation) : G :=
  foldl (fun g l => es_addPlanetLocation l g) g locations.

(** The locations whose id is known to be on the ledger. *)
Definition knownOnLedger (g : G) (locations : list WorldLocation)
    : list WorldLocation :=
  List.filter (fun l => es_isPlanetInContract (loc_hash l) g) locations.


End Summaries.

(** ** A small world for the examples *)

Definition location_at (x y : Z) (hash : LocationId) : WorldLocation :=
  {| loc_coords := {| wc_x := x; wc_y := y |}; loc_hash := hash;
     loc_perlin := 0; loc_biomebase := 0 |}.

(** The reveal of the home planet that is still unconfirmed. *)
Definition pendingReveal : TxIntent :=
  UnconfirmedReveal "act1" "00a1" (location_at 3 4 "00a1").

(** The player's planet at (3, 4), last brought up to date at time 0. *)
Definition homePlanet : Planet :=
  {| p_locationId := "00a1"; p_owner := "0xab";
     p_location := Some (location_at 3 4 "00a1");
     p_coordsRevealed := false;
     p_unconfirmedReveal := Some pendingReveal;
     p_heldArtifactIds := []; p_lastUpdated := 0 |}.

(** A planet at (300, 400), outside a world of radius 100. *)
Definition farPlanet : Planet :=
  {| p_locationId := "00b2"; p_owner := "0xcd";
     p_location := Some (location_at 300 400 "00b2");
     p_coordsRevealed := false; p_unconfirmedReveal := None;
     p_heldArtifactIds := []; p_lastUpdated := 0 |}.

(** A neighbour at (10, 20), inside the world. *)
Definition nearPlanet : Planet :=
  {| p_locationId := "00d4"; p_owner := "0xcd";
     p_location := Some (location_at 10 20 "00d4");
     p_coordsRevealed := false; p_unconfirmedReveal := None;
     p_heldArtifactIds := []; p_lastUpdated := 0 |}.

Definition demoStore : GameObjects :=
  {| go_planets := {[ "00a1" := homePlanet; "00b2" := farPlanet;
                      "00d4" := nearPlanet ]};
     go_locations := {[ "00a1" := location_at 3 4 "00a1";
                        "00b2" := location_at 300 400 "00b2";
                        "00d4" := location_at 10 20 "00d4" ]};
     go_artifacts := ∅;
     go_touchedPlanetIds := {[ "00a1" ]};
     go_unconfirmedReveal := Some pendingReveal;
     go_unconfirmed := {[ "act1" := pendingReveal ]} |}.

Definition demoState : State ExactNumber GameObjects :=
  {| entityStore := demoStore; account := Some "0xab";
     players := {[ "0xab" := {| pl_address := "0xab";
                                lastRevealTimestamp := 0 |} ]};
     hashRate := exact_lit 7; worldRadius := 100;
     minerManager := Some MinerManagerHandle; terminal := true;
     LOCATION_REVEAL_COOLDOWN := 60; localStorage := ∅; calls := [];
     scheduled := [] |}.

(** The same world with no intent pending. *)
Definition quietState : State ExactNumber GameObjects :=
  {| entityStore := go_clearUnconfirmedTxIntent pendingReveal demoStore;
     account := Some "0xab";
     players := {[ "0xab" := {| pl_address := "0xab";
                                lastRevealTimestamp := 0 |} ]};
     hashRate := exact_lit 7; worldRadius := 100;
     minerManager := Some MinerManagerHandle; terminal := true;
     LOCATION_REVEAL_COOLDOWN := 60; localStorage := ∅; calls := [];
     scheduled := [] |}.

(** A ledger on which the home planet is known and nothing else is. *)
Definition demoLedger : Ledger :=
  {| l_planet := fun id => if String.eqb id "00a1" then Some homePlanet else None;
     l_planets := fun _ => {[ "00a1" := homePlanet ]};
     l_arrivals := fun _ => [];
     l_allArrivals := fun _ => [];
     l_artifactsOn := fun _ => [];
     l_revealedCoords := fun _ => None;
     l_artifact := fun _ => None |}.

(** A chunk with the home planet, which is on the ledger, and a location that
    is not. *)
Definition demoChunk : Chunk :=
  {| chunkFootprint := {| bottomLeft := {| wc_x := 0; wc_y := 0 |};
                          sideLength := 16 |};
     planetLocations := [location_at 3 4 "00a1"; location_at 9 9 "00c3"] |}.

(** One millisecond after the end of the game, and a time before it. *)
Definition afterTheEnd : Z := endTimeSeconds * 1000 + 1.
Definition duringTheGame : Z := 1640000000000.

(** ** More of the manager *)

(** The rest of the embedding: the transaction methods from their first line
    on, the other listeners that [create] registers, the bulk import of
    chunks, the start of the miner and the readers of planets and artifacts. *)

(** [l.map(f)] for an [f] with effects, from left to right. *)
Fixpoint mapM {S A B} (f : A -> M S B) (l : list A) : M S (list B) :=
  match l with
  | [] => mret []
  | a :: l' => b ← f a; bs ← mapM f l'; mret (b :: bs)
  end.

(** The fields of a planet that the methods below read and that the record
    [Planet] does not carry. *)
Class PlanetFields := {
  hasTriedFindingArtifact : Planet -> bool;
  unconfirmedFindArtifact : Planet -> option TxIntent;
  (** [planet.planetType === PlanetType.RUINS] *)
  planetType_is_RUINS : Planet -> bool;
  hatLevel : Planet -> Z
}.

(** The fields of an artifact that [getWormholeFactors] reads. *)
Class ArtifactFields := {
  (** [artifact.artifactType === ArtifactType.Wormhole] *)
  artifactType_is_Wormhole : Artifact -> bool;
  wormholeTo : Artifact -> option LocationId;
  rarity : Artifact -> Z
}.

(** Constants that the manager imports. *)
Class Constants := {
  MIN_CHUNK_SIZE : Z;
  ArtifactRarity_Unknown : Z
}.

Record WormholeFactors := {
  distanceFactor : option Z;
  speedFactor : option Z
}.

Record RevealCountdownInfo := {
  rci_myLastRevealTimestamp : option Z;
  currentlyRevealing : bool;
  revealCooldownTime : Z
}.

(** What the manager does besides the calls of the log [calls]: the events it
    emits to its own listeners, the notification of a received planet, plain
    lines on the terminal, the read of the world's radius and the creation of
    the miner. *)
Inductive Signal :=
| EmitPlanetUpdate
| EmitArtifactUpdate (artifactId : ArtifactId)
| ReceivedPlanet (planet : Planet)
| TerminalPrintln (text : string)
| GetWorldRadius
| CreateMiner (pattern : MiningPattern) (worldRadius : Z)
| MinerSetCores.

(** The manager together with the list of its signals, each with the length
    that the log of calls had when it was given, and the bulk refreshes that
    were started without being awaited. *)
Record Session (number G : Type) := {
  manager : State number G;
  signals : list (nat * Signal);
  scheduledBulk : list (list LocationId)
}.
Arguments manager {number G} s.
Arguments signals {number G} s.
Arguments scheduledBulk {number G} s.

Section MoreOfTheManager.
Context {number : Type} `{JsNumber number}.
Context {G : Type} `{EntityStore G}.
Context `{HashOracle}.
Context `{PlanetFields} `{ArtifactFields} `{Constants}.

Local Abbreviation St := (State number G).
Local Abbreviation Ss := (Session number G).

Definition set_minerManager (m : option MinerManager) (s : St) : St :=
  {| entityStore := entityStore s; account := account s; players := players s;
     hashRate := hashRate s; worldRadius := worldRadius s;
     minerManager := m; terminal := terminal s;
     LOCATION_REVEAL_COOLDOWN := LOCATION_REVEAL_COOLDOWN s;
     localStorage := localStorage s; calls := calls s;
     scheduled := scheduled s |}.

(** A method of the manager, run inside the session. *)
Definition liftManager {A} (m : M St A) : M Ss A :=
  fun ss => let '(r, s') := m (manager ss) in
            (r, {| manager := s'; signals := signals ss;
                   scheduledBulk := scheduledBulk ss |}).

Definition signal (x : Signal) : M Ss unit :=
  modify (fun ss => {| manager := manager ss;
                       signals := signals ss
                                  ++ [(length (calls (manager ss)), x)];
                       scheduledBulk := scheduledBulk ss |}).

(** [this.terminal.current?.println(text)] *)
Definition terminalPrintln (text : string) : M Ss unit :=
  present ← liftManager (gets terminal);
  if present : bool then signal (TerminalPrintln text) else mret tt.

(** *** Reading planets and artifacts *)

Definition getPlanetsWithIds (now : Z) (planetId : list LocationId)
    : M St (list Planet) :=
  found ← mapM (fun id => getPlanetWithId now (Some id)) planetId;
  mret (omap (fun p : option Planet => p) found).

Definition getArtifactWithId (artifactId : ArtifactId)
    : M St (option Artifact) :=
  storeRead (es_getArtifactById artifactId).

Definition getArtifactsWithIds (artifactIds : list ArtifactId)
    : M St (list (option Artifact)) :=
  mapM getArtifactWithId artifactIds.

(** [artifacts.find((a) => a && isActivated(a))] *)
Definition findActivated (artifacts : list (option Artifact))
    : option Artifact :=
  mjoin (List.find (fun a : option Artifact =>
                      match a with Some a => isActivated a | None => false end)
                   artifacts).

Definition getActiveArtifact (planet : Planet) : M St (option Artifact) :=
  artifacts ← getArtifactsWithIds (p_heldArtifactIds planet);
  mret (findActivated artifacts).

(** [a?.artifactType === ArtifactType.Wormhole && a.wormholeTo === id] *)
Definition isWormholeTo (a : option Artifact) (id : LocationId) : bool :=
  match a with
  | Some a => artifactType_is_Wormhole a && bool_decide (wormholeTo a = Some id)
  | None => false
  end.

Definition rangeUpgradesPerRarity : list Z := [0; 2; 4; 6; 8; 10].
Definition speedUpgradesPerRarity : list Z := [0; 10; 20; 30; 40; 50].

(** [table[r]], which is [undefined] outside the table. *)
Definition tableAt (table : list Z) (r : Z) : option Z :=
  if r <? 0 then None else table !! Z.to_nat r.

(** The two [if]s of [getWormholeFactors] that assign [greaterRarity]. *)
Definition greaterRarityOf (fromActiveArtifact toActiveArtifact : option Artifact)
    (fromPlanet toPlanet : Planet) : option Z :=
  let greaterRarity :=
    if isWormholeTo fromActiveArtifact (p_locationId toPlanet)
    then rarity <$> fromActiveArtifact
    else None in
  if isWormholeTo toActiveArtifact (p_locationId fromPlanet)
  then match greaterRarity, toActiveArtifact with
       | None, _ => rarity <$> toActiveArtifact
       | Some r, Some a => Some (Z.max r (rarity a))
       | Some r, None => Some r
       end
  else greaterRarity.

Definition getWormholeFactors (fromPlanet toPlanet : Planet)
    : M St (option WormholeFactors) :=
  fromActiveArtifact ← getActiveArtifact fromPlanet;
  toActiveArtifact ← getActiveArtifact toPlanet;
  match greaterRarityOf fromActiveArtifact toActiveArtifact fromPlanet toPlanet
  with
  | None => mret None
  | Some greaterRarity =>
      (* [!greaterRarity || greaterRarity <= ArtifactRarity.Unknown] *)
      if (greaterRarity =? 0) || (greaterRarity <=? ArtifactRarity_Unknown)
      then mret None
      else mret (Some
             {| distanceFactor := tableAt rangeUpgradesPerRarity greaterRarity;
                speedFactor := tableAt speedUpgradesPerRarity greaterRarity |})
  end.

Definition getNextRevealCountdownInfo : M St RevealCountdownInfo :=
  acc ← gets account;
  match acc with
  | None => throw "no account set"
  | Some account =>
      last ← myLastRevealTimestamp account;
      pending ← storeRead es_getUnconfirmedReveal;
      cooldown ← gets LOCATION_REVEAL_COOLDOWN;
      mret {| rci_myLastRevealTimestamp := last;
              currentlyRevealing := bool_decide (is_Some pending);
              revealCooldownTime := cooldown |}
  end.

(** *** The transaction methods from their first line on *)

(** Each method below receives, as [written], how the promise of its write
    to the ledger settles; [actionId] is the value of [getRandomActionId()]
    and [now] the value of [Date.now()]. *)

Definition depositArtifact (now : Z) (actionId : ActionId)
    (locationId : LocationId) (artifactId : ArtifactId) (bypassChecks : bool)
    (written : Settled unit) : M St unit :=
  ended ← (if bypassChecks then mret false else checkGameHasEnded now);
  if ended : bool then mret tt else
  setItem "depositPlanet" locationId;;
  setItem "depositArtifact" artifactId;;
  depositArtifact_submit actionId locationId artifactId written.

Definition withdrawArtifact (now : Z) (actionId : ActionId)
    (locationId : LocationId) (artifactId : ArtifactId) (bypassChecks : bool)
    (written : Settled unit) : M St unit :=
  proceed ←
    (if bypassChecks then mret true else
     ended ← checkGameHasEnded now;
     if ended : bool then mret false else
     planet ← storeGet (es_getPlanetWithId now locationId true);
     match planet with
     | None =>
         call (CConsoleError "tried to withdraw from unknown planet");;
         mret false
     | Some _ =>
         if truthy artifactId then mret true
         else call (CConsoleError "must supply an artifact id");; mret false
     end);
  if proceed : bool then
    setItem "withdrawPlanet" locationId;;
    setItem "withdrawArtifact" artifactId;;
    if pastEndTime now then terminalDo GameEndedLine
    else withdrawArtifact_submit actionId locationId artifactId written
  else mret tt.

Definition activateArtifact (now : Z) (actionId : ActionId)
    (locationId : LocationId) (artifactId : ArtifactId)
    (wormholeTo : option LocationId) (bypassChecks : bool)
    (written : Settled unit) : M St unit :=
  proceed ←
    (if bypassChecks then mret true else
     ended ← checkGameHasEnded now;
     if ended : bool then mret false else
     planet ← storeGet (es_getPlanetWithId now locationId true);
     match planet with
     | None => throw "tried to activate on an unknown planet"
     | Some _ =>
         if truthy artifactId then mret true
         else throw "must supply an artifact id"
     end);
  if proceed : bool then
    setItem "activatePlanet" locationId;;
    setItem "activateArtifact" artifactId;;
    activateArtifact_submit actionId locationId artifactId wormholeTo written
  else mret tt.

Definition deactivateArtifact (now : Z) (actionId : ActionId)
    (locationId : LocationId) (artifactId : ArtifactId) (bypassChecks : bool)
    (written : Settled unit) : M St unit :=
  proceed ←
    (if bypassChecks then mret true else
     ended ← checkGameHasEnded now;
     if ended : bool then mret false else
     planet ← storeGet (es_getPlanetWithId now locationId true);
     match planet with
     | None => throw "tried to deactivate on an unknown planet"
     | Some _ => mret true
     end);
  if proceed : bool then
    setItem "deactivatePlanet" locationId;;
    setItem "deactivateArtifact" artifactId;;
    deactivateArtifact_submit actionId locationId artifactId written
  else mret tt.

(** [branch.toString()] of an integer is its decimal notation. *)
Definition upgrade (now : Z) (actionId : ActionId) (planetId : LocationId)
    (branch : Z) (written : Settled unit) : M St unit :=
  ended ← checkGameHasEnded now;
  if ended : bool then mret tt else
  setItem "upPlanet" planetId;;
  setItem "branch" (pretty branch);;
  upgrade_submit actionId planetId branch written.


(** [console.error("planet not found")] and the line on the terminal. *)
Definition planetNotFound : M Ss unit :=
  liftManager (call (CConsoleError "planet not found"));;
  terminalPrintln "[TX ERROR] Planet not found".

Definition buyHat (now : Z) (actionId : ActionId) (planetId : LocationId)
    (written : Settled unit) : M Ss unit :=
  ended ← liftManager (checkGameHasEnded now);
  if ended : bool then mret tt else
  planetLoc ← liftManager (storeRead (es_getLocationOfPlanet planetId));
  match planetLoc with
  | None => planetNotFound
  | Some planetLoc =>
  planet ← liftManager (storeGet (es_getPlanetWithLocation now planetLoc));
  match planet with
  | None => planetNotFound
  | Some planet =>
      liftManager
        (setItem "hatPlanet" planetId;;
         setItem "hatLevel" (pretty (hatLevel planet + 1));;
         buyHat_submit actionId planetId (hatLevel planet) written)
  end end.

Definition transferOwnership (now : Z) (actionId : ActionId)
    (planetId : LocationId) (newOwner : EthAddress) (bypassChecks : bool)
    (written : Settled unit) : M Ss unit :=
  proceed ←
    (if bypassChecks then mret true else
     ended ← liftManager (checkGameHasEnded now);
     if ended : bool then mret false else
     planetLoc ← liftManager (storeRead (es_getLocationOfPlanet planetId));
     match planetLoc with
     | None => planetNotFound;; mret false
     | Some planetLoc =>
         planet ←
           liftManager (storeGet (es_getPlanetWithLocation now planetLoc));
         match planet with
         | None => planetNotFound;; mret false
         | Some _ => mret true
         end
     end);
  if proceed : bool then
    liftManager
      (setItem "transferPlanet" planetId;;
       setItem "transferOwner" newOwner;;
       transferOwnership_submit actionId planetId newOwner written)
  else mret tt.

(** *** The other listeners that [create] registers *)

(** Each listener runs from its first line to its last; [ledger] answers its
    reads. *)

Definition ArtifactUpdate_listener (ledger : Ledger) (artifactId : ArtifactId)
    : M Ss unit :=
  liftManager (hardRefreshArtifact ledger artifactId);;
  signal (EmitArtifactUpdate artifactId).

Definition PlanetTransferred_listener (ledger : Ledger) (now : Z)
    (planetId : LocationId) (newOwner : EthAddress) : M Ss unit :=
  liftManager (hardRefreshPlanet ledger planetId);;
  planetAfter ← liftManager (getPlanetWithId now (Some planetId));
  acc ← liftManager (gets account);
  match planetAfter with
  | Some planetAfter =>
      if bool_decide (Some newOwner = acc)
      then signal (ReceivedPlanet planetAfter)
      else mret tt
  | None => mret tt
  end.

(** [localPlanet && isLocatable(localPlanet)] *)
Definition knownAndLocatable (localPlanet : option Planet) : bool :=
  match localPlanet with
  | Some localPlanet => bool_decide (is_Some (p_location localPlanet))
  | None => false
  end.

Definition PlanetUpdate_listener (ledger : Ledger) (now : Z)
    (planetId : LocationId) : M Ss unit :=
  localPlanet ← liftManager (storeGet (es_getPlanetWithId now planetId true));
  if knownAndLocatable localPlanet then
    liftManager (hardRefreshPlanet ledger planetId);;
    signal EmitPlanetUpdate
  else mret tt.

Definition ArrivalQueued_listener (ledger : Ledger) (now : Z)
    (_arrivalId : VoyageId) (fromId toId : LocationId) : M Ss unit :=
  localToPlanet ← liftManager (storeGet (es_getPlanetWithId now toId true));
  if knownAndLocatable localToPlanet then
    liftManager (bulkHardRefreshPlanets ledger [fromId; toId]);;
    signal EmitPlanetUpdate
  else mret tt.

Definition LocationRevealed_listener (ledger : Ledger) (planetId : LocationId)
    (_revealer : EthAddress) : M Ss unit :=
  liftManager (hardRefreshPlanet ledger planetId);;
  signal EmitPlanetUpdate.


(** *** The miner *)

(** The listener of [DiscoveredNewChunk] that [initMiningManager] registers
    is [DiscoveredNewChunk_listener]. *)
Definition initMiningManager (homeCoords : WorldCoords) : M Ss unit :=
  miner ← liftManager (gets minerManager);
  match miner with
  | Some _ => mret tt
  | None =>
      radius ← liftManager (gets worldRadius);
      signal (CreateMiner (SpiralPattern homeCoords MIN_CHUNK_SIZE) radius);;
      liftManager (modify (set_minerManager (Some MinerManagerHandle)));;
      signal MinerSetCores
  end.

(** *** Many chunks at once *)

(** The body of the inner loop of [bulkAddNewChunks]: what it pushes on
    [planetIdsToUpdate]. *)
Definition bulkAddNewChunks_body (planetLocation : WorldLocation)
    : M St (list LocationId) :=
  store (es_addPlanetLocation planetLocation);;
  inContract ← storeRead (es_isPlanetInContract (loc_hash planetLocation));
  mret (if inContract : bool then [loc_hash planetLocation] else []).

Definition bulkAddNewChunks_chunk (chunk : Chunk) : M St (list LocationId) :=
  call (CChunkStore (AddChunk chunk true));;
  pushed ← mapM bulkAddNewChunks_body (planetLocations chunk);
  mret (concat pushed).

(** [this.bulkHardRefreshPlanets(planetIdsToUpdate)] without [await]: the
    first read is issued and the rest is left to run later. *)
Definition scheduleBulk (planetIds : list LocationId) : M Ss unit :=
  liftManager (bulkHardRefreshPlanets_start planetIds);;
  modify (fun ss => {| manager := manager ss; signals := signals ss;
                       scheduledBulk := scheduledBulk ss ++ [planetIds] |}).

Definition bulkAddNewChunks (chunks : list Chunk) : M Ss unit :=
  terminalPrintln
    "IMPORTING MAP: if you are importing a large map, this may take a while...";;
  pushed ← liftManager (mapM bulkAddNewChunks_chunk chunks);
  let planetIdsToUpdate := concat pushed in
  terminalPrintln ("downloading data for "
                   +:+ pretty (length planetIdsToUpdate) +:+ " planets...");;
  scheduleBulk planetIdsToUpdate.

(** A bulk refresh that was started goes on once the ledger answers. *)
Definition resumeScheduledBulk (ledger : Ledger) : M Ss unit :=
  pending ← gets scheduledBulk;
  match pending with
  | [] => mret tt
  | planetIds :: rest =>
      modify (fun ss => {| manager := manager ss; signals := signals ss;
                           scheduledBulk := rest |});;
      liftManager (bulkHardRefreshPlanets_resume ledger planetIds)
  end.


(** *** Summaries of the methods above *)

(** The voyages whose destination is [id]. *)
Definition voyagesTo (id : LocationId) (voyages : list QueuedArrival)
    : list QueuedArrival :=
  List.filter (fun v => bool_decide (toPlanet v = id)) voyages.

(** The store after a hard refresh of [planetId]. *)
Definition hardRefreshed (ledger : Ledger) (planetId : LocationId) (g : G) : G :=
  match l_planet ledger planetId with
  | None => g
  | Some planet =>
      foldl (fun g a => es_replaceArtifactFromContractData a g)
        (es_replacePlanetFromContractData planet
           (Some (l_arrivals ledger planetId))
           (Some (art_id <$> l_artifactsOn ledger planetId))
           (match l_revealedCoords ledger planetId with
            | Some revealedCoords =>
                Some {| rl_location :=
                          locationFromCoords (rc_coords revealedCoords);
                        rl_revealer := rc_revealer revealedCoords |}
            | None => None
            end) g)
        (l_artifactsOn ledger planetId)
  end.

(** The store after a bulk refresh of [planetIds]: every requested planet
    that the ledger returns is replaced, with the voyages that arrive at it
    and the ids of the artifacts on it; then the artifacts on every requested
    planet are replaced. *)
Definition bulkRefreshed (ledger : Ledger) (planetIds : list LocationId)
    (g : G) : G :=
  let planets := l_planets ledger planetIds in
  let replace g planetId :=
    match planets !! planetId with
    | Some planet =>
        if bool_decide (is_Some (planets !! p_locationId planet))
        then es_replacePlanetFromContractData planet
               (Some (voyagesTo (p_locationId planet)
                        (l_allArrivals ledger planetIds)))
               (Some (art_id <$> l_artifactsOn ledger planetId)) None g
        else g
    | None => g
    end in
  foldl (fun g planetId =>
           es_replaceArtifactsFromContractData (l_artifactsOn ledger planetId) g)
    (foldl replace g planetIds) planetIds.

(** The key of [localStorage] for [suffix]. *)
Definition keyOf (s : St) (suffix : string) : string :=
  (match account s with Some a => toLowerCase a | None => "undefined" end)
    +:+ "-" +:+ suffix.

(** [m] returns without an exception, leaves the entity store as it is and
    sends nothing: no proof is asked for and nothing is written to the
    ledger. *)
Definition sendsNothing (m : M St unit) (s : St) : Prop :=
  result m s = Normal tt
  /\ entityStore (exec m s) = entityStore s
  /\ Forall (fun c => is_write c = false /\ is_snark c = false)
       (newCalls s (exec m s)).

(** The ids that a refresh is started for when [locations] are added. *)
Definition idsOnLedger (g : G) (chunks : list Chunk) : list LocationId :=
  loc_hash <$> knownOnLedger g (chunks ≫= planetLocations).


(** What [.catch((e) => this.onTxIntentFail(txIntent, e))] leaves of the
    store [g] once the promise of the write has settled. *)
Definition settled (txIntent : TxIntent) (written : Settled unit) (g : G) : G :=
  match written with
  | Resolved _ => g
  | Rejected _ => es_clearUnconfirmedTxIntent txIntent g
  end.

(** [m] either records the intent [txIntent] and hands exactly the write
    [write] to the ledger, or records no intent and writes nothing.  The
    store that the intent is recorded in is the one that [m] found, or that
    store after the lookup of the planet [planetId]. *)
Definition allOrNothing (now : Z) (planetId : LocationId) (txIntent : TxIntent)
    (write : LedgerWrite) (written : Settled unit) (m : M St unit) (s : St)
    : Prop :=
  let s' := exec m s in
  exists g,
    (g = entityStore s
     \/ g = (es_getPlanetWithId now planetId true (entityStore s)).2)
    /\ ((entityStore s' = g
         /\ List.filter is_write (newCalls s s') = [])
        \/ (entityStore s' = settled txIntent written (es_onTxIntent txIntent g)
            /\ List.filter is_write (newCalls s s') = [CWrite write]
            /\ result m s = Normal tt)).

(** Does the event call a method that makes a transaction, or the
    continuation of one? *)
Definition isTransaction (ev : Event) : bool :=
  match ev with
  | EvTxSubmitted _ | EvTxConfirmed _ _ | EvTxReverted _
  | EvDiscoveredNewChunk _ _ | EvAddNewChunk _ | EvResumeScheduled _
  | EvStartExplore | EvStopExplore | EvSetRadius _ | EvSetMiningPattern _
  | EvGetHashesPerSec | EvGetPlanetWithId _ _ | EvGetStalePlanetWithId _ _ =>
      false
  | _ => true
  end.

(** [m] sends nothing, whatever the state: what it adds to the log of calls
    is neither a write to the ledger nor a request for a proof. *)
Definition Quiet {A} (m : M St A) : Prop :=
  forall s, exists l,
    calls (exec m s) = calls s ++ l
    /\ Forall (fun c => is_write c = false /\ is_snark c = false) l.

(** The first activated artifact among those that [planet] holds. *)
Definition activeArtifactOf (planet : Planet) (g : G) : option Artifact :=
  findActivated
    ((fun id => es_getArtifactById id g) <$> p_heldArtifactIds planet).

(** The store after a refresh of the artifact [artifactId]. *)
Definition artifactRefreshed (ledger : Ledger) (artifactId : ArtifactId)
    (g : G) : G :=
  match l_artifact ledger artifactId with
  | Some artifact => es_replaceArtifactFromContractData artifact g
  | None => g
  end.

(** The session after a listener that made the reads [reads], left the
    store [g] and then gave the signals [given]. *)
Definition refreshedSession (reads : list LedgerRead) (g : G)
    (given : list Signal) (ss : Ss) : Ss :=
  let s' := set_calls (calls (manager ss) ++ (CRead <$> reads))
              (set_entityStore g (manager ss)) in
  {| manager := s';
     signals := signals ss ++ ((fun x => (length (calls s'), x)) <$> given);
     scheduledBulk := scheduledBulk ss |}.

End MoreOfTheManager.

(** ** More of the small world *)

#[global] Instance demoPlanetFields : PlanetFields := {|
  hasTriedFindingArtifact := fun _ => false;
  unconfirmedFindArtifact := fun _ => None;
  planetType_is_RUINS := fun p => String.eqb (p_locationId p) "00a1";
  hatLevel := fun _ => 2
|}.

(** Every artifact of the small world is a common wormhole to the neighbour. *)
#[global] Instance demoArtifactFields : ArtifactFields := {|
  artifactType_is_Wormhole := fun _ => true;
  wormholeTo := fun _ => Some "00d4";
  rarity := fun _ => 1
|}.

#[global] Instance demoConstants : Constants := {|
  MIN_CHUNK_SIZE := 16;
  ArtifactRarity_Unknown := 0
|}.

Definition demoSession : Session ExactNumber GameObjects :=
  {| manager := quietState; signals := []; scheduledBulk := [] |}.

(** ** The manager's methods, proved *)

Section Proofs.
Context {number : Type} `{JsNumber number}.
Context {G : Type} `{EntityStore G}.
Context `{HashOracle}.

Local Abbreviation St := (State number G).

Ltac mrun :=
  cbv [mbind M_bind mret M_ret gets modify throw call store storeGet
       storeRead terminalDo exec result void];
  cbn [fst snd].

Ltac simpl_state :=
  unfold set_calls, set_entityStore, set_localStorage, set_hashRate,
    set_worldRadius, set_scheduled;
  cbn [fst snd entityStore account players hashRate worldRadius minerManager
       terminal LOCATION_REVEAL_COOLDOWN localStorage calls scheduled].

Lemma bind_run {A B} (m : M St A) (f : A -> M St B) (s : St) :
  (m ≫= f) s = match m s with
               | (Normal a, s') => f a s'
               | (Thrown e, s') => (Thrown e, s')
               end.
Proof. reflexivity. Qed.

Lemma Reads_ret : Reads (mret tt : M St unit) [].
Proof.
  intros s. exists (entityStore s). cbn. unfold M_ret.
  f_equal. destruct s; cbn. unfold set_calls, set_entityStore; cbn.
  by rewrite app_nil_r.
Qed.

Lemma Reads_bind (m m' : M St unit) (l l' : list LedgerRead) :
  Reads m l -> Reads m' l' -> Reads (m ;; m') (l ++ l').
Proof.
  intros Hm Hm' s. destruct (Hm s) as [g Hg].
  destruct (Hm' (set_calls (calls s ++ (CRead <$> l)) (set_entityStore g s)))
    as [g' Hg'].
  exists g'. rewrite bind_run, Hg, Hg'. cbn.
  unfold set_calls, set_entityStore; cbn.
  by rewrite fmap_app, app_assoc.
Qed.

Lemma Reads_call (r : LedgerRead) : Reads (call (CRead r) : M St unit) [r].
Proof. intros s. exists (entityStore s). by destruct s. Qed.

Lemma Reads_store (f : G -> G) : Reads (store f : M St unit) [].
Proof.
  intros s. exists (f (entityStore s)). cbn.
  unfold store, modify, set_calls, set_entityStore; cbn.
  by rewrite app_nil_r.
Qed.

Lemma Reads_forM {A} (l : list A) (body : A -> M St unit) :
  Forall (fun a => Reads (body a) []) l -> Reads (forM_ l body) [].
Proof.
  induction 1 as [|a l Ha _ IH]; cbn [forM_].
  - apply Reads_ret.
  - apply (Reads_bind _ _ [] []); assumption.
Qed.

Lemma Reads_eq (m : M St unit) (l l' : list LedgerRead) :
  Reads m l -> l = l' -> Reads m l'.
Proof. by intros ? <-. Qed.






(** Every index of the loop over [planetIds] has its list of artifacts. *)
Lemma zip_seq_lookup {A B} (f : A -> B) (l : list A) (start : nat) :
  Forall (fun '(i, a) => exists b, (f <$> l) !! (i - start)%nat = Some b
                                   /\ (start <= i)%nat)
         (zip (seq start (length l)) l).
Proof.
  revert start. induction l as [|a l IH]; intros start; cbn; [constructor|].
  constructor.
  - exists (f a). rewrite Nat.sub_diag. split; [done | lia].
  - specialize (IH (S start)). eapply Forall_impl; [exact IH|].
    intros [i a'] (b & Hb & Hle). exists b. split; [|lia].
    replace (i - start)%nat with (S (i - S start)) by lia. done.
Qed.

Lemma Reads_bulkHardRefreshPlanets_resume ledger planetIds :
  Reads (bulkHardRefreshPlanets_resume ledger planetIds : M St unit)
    (bulkReads planetIds).
Proof.
  unfold bulkHardRefreshPlanets_resume, bulkReads.
  eapply Reads_eq.
  - eapply Reads_bind; [apply Reads_call|].
    eapply Reads_bind; [apply Reads_call|].
    eapply Reads_bind.
    + apply Reads_forM.
      pose proof (zip_seq_lookup (l_artifactsOn ledger) planetIds 0) as Hz.
      eapply Forall_impl; [exact Hz|].
      intros [i planetId] (b & Hb & _). rewrite Nat.sub_0_r in Hb.
      destruct (l_planets ledger planetIds !! planetId); [|apply Reads_ret].
      destruct (foldl addVoyage _ _ !! _); [|apply Reads_ret].
      unfold bulkGetArtifactsOnPlanets. rewrite Hb. apply Reads_store.
    + apply Reads_forM, Forall_forall. intros a _. apply Reads_store.
  - reflexivity.
Qed.

Lemma Reads_bulkHardRefreshPlanets ledger planetIds :
  Reads (bulkHardRefreshPlanets ledger planetIds : M St unit)
    (GetAllArrivals planetIds :: bulkReads planetIds).
Proof.
  unfold bulkHardRefreshPlanets, bulkHardRefreshPlanets_start.
  apply (Reads_bind _ _ [_] _); [apply Reads_call|].
  apply Reads_bulkHardRefreshPlanets_resume.
Qed.


Lemma readsIn_app (l l' : list Call) : readsIn (l ++ l') = readsIn l ++ readsIn l'.
Proof. apply omap_app. Qed.


Lemma newCalls_app (s s' : St) (l : list Call) :
  calls s' = calls s ++ l -> newCalls s s' = l.
Proof. intros E. unfold newCalls. by rewrite E, drop_app_length. Qed.






Lemma TxReverted_listener_run tx (s : St) :
  TxReverted_listener tx s
  = (Normal tt,
     set_calls
       (calls s
        ++ CChunkStore (OnEthTxComplete (txHash tx))
           :: (if terminal s then [CTerminal (TxRevertLine tx)] else [])
        ++ [CNotify (NTxRevert tx)])
       (set_entityStore
          (es_clearUnconfirmedTxIntent (tx_intent tx) (entityStore s)) s)).
Proof.
  unfold TxReverted_listener, onTxReverted. mrun.
  unfold set_calls, set_entityStore; cbn.
  destruct (terminal s); cbn; do 2 f_equal; rewrite <- ?app_assoc; reflexivity.
Qed.

(** C4. When a submitted transaction is reverted, the listener clears the
    intent in the entity store, tells the chunk store that the transaction
    is complete and reports the revert on the terminal and to the
    notification manager.  Nothing is read from the ledger, and the entity
    store changes by the clearing alone. *)
Theorem TxReverted_only_clears tx (s : St) :
  let s' := exec (TxReverted_listener tx) s in
  result (TxReverted_listener tx) s = Normal tt
  /\ s' = set_calls (calls s') (set_entityStore
            (es_clearUnconfirmedTxIntent (tx_intent tx) (entityStore s)) s)
  /\ newCalls s s'
     = CChunkStore (OnEthTxComplete (txHash tx))
       :: (if terminal s then [CTerminal (TxRevertLine tx)] else [])
       ++ [CNotify (NTxRevert tx)]
  /\ readsIn (newCalls s s') = [].
Proof.
  intros s'. subst s'. unfold exec, result.
  rewrite TxReverted_listener_run. cbn [fst snd].
  erewrite newCalls_app by reflexivity.
  repeat split. destruct (terminal s); reflexivity.
Qed.


Ltac unfold_methods :=
  cbv [step run revealLocation_settled move_settled findArtifact_settled
       prospectPlanet_submit depositArtifact_submit withdrawArtifact_submit
       activateArtifact_submit deactivateArtifact_submit
       withdrawSilver_submit upgrade_submit buyHat_submit
       transferOwnership_submit submitIntent catchIntentFail onTxIntentFail
       handleTxIntent intent_type].

Ltac failure_case :=
  unfold_methods; mrun; unfold set_calls, set_entityStore, newCalls;
  cbn [entityStore calls terminal fst snd];
  rewrite <- ?app_assoc, drop_app_length; cbn [app];
  (split; [auto|]); (split; [auto|]);
  split; [|reflexivity];
  first [ exists []; split; [reflexivity|]
        | eexists [_]; split; [reflexivity|]
        | eexists [_; _]; split; [reflexivity|]
        | eexists [_; _; _]; split; [reflexivity|] ];
  cbn; auto.

(** C5. A submission that fails before the ledger has the transaction (the
    proof generator rejects, or the promise of the writer rejects) clears
    the intent and reports the error to the notification manager and on the
    terminal.  Nothing is read from the ledger, and nothing is tried again:
    no proof is asked for, and the only write is the one that failed. *)
Theorem submit_failure_clears ev txIntent e (s : St) :
  submitFailure ev = Some (txIntent, e) ->
  ClearUnsets ->
  let s' := step s ev in
  (entityStore s' = es_clearUnconfirmedTxIntent txIntent (entityStore s)
   \/ entityStore s'
      = es_clearUnconfirmedTxIntent txIntent
          (es_onTxIntent txIntent (entityStore s)))
  /\ es_isUnconfirmed txIntent (entityStore s') = false
  /\ (exists attempt,
        newCalls s s'
        = attempt ++ CNotify (NUnsubmittedTxFail txIntent e)
                     :: (if terminal s then [CTerminal (IntentErrorLine e)]
                         else [])
        /\ (readsIn attempt = []
            /\ List.filter is_snark attempt = []
            /\ (length (List.filter is_write attempt) <= 1)%nat))
  /\ readsIn (newCalls s s') = [].
Proof.
  intros Hf Hclear s'. subst s'.
  destruct s as [g acc pl hr wr mm term cd ls cs sch].
  destruct ev; cbn in Hf; try discriminate;
    repeat match goal with
           | p : Settled _ |- _ => destruct p; cbn in Hf; try discriminate
           end;
    injection Hf as <- <-;
    destruct term; failure_case.
Qed.

(** *** Chunks and the hash rate *)

Lemma knownOnLedger_add (location : WorldLocation) (g : G)
    (locations : list WorldLocation) :
  AddLocationKeepsContract ->
  knownOnLedger (es_addPlanetLocation location g) locations
  = knownOnLedger g locations.
Proof.
  intros Hlaw. unfold knownOnLedger. apply List.filter_ext.
  intros l. apply Hlaw.
Qed.

Lemma addNewChunk_body_run (l : WorldLocation) (s : St) :
  addNewChunk_body l s
  = (Normal tt,
     let g := es_addPlanetLocation l (entityStore s) in
     if es_isPlanetInContract (loc_hash l) g
     then set_scheduled (scheduled s ++ [loc_hash l])
            (set_calls (calls s ++ [CRead (GetPlanetById (loc_hash l))])
               (set_entityStore g s))
     else set_entityStore g s).
Proof.
  unfold addNewChunk_body, schedule, hardRefreshPlanet_start. mrun.
  destruct s as [g acc pl hr wr mm term cd ls cs sch].
  cbn [entityStore set_entityStore].
  destruct (es_isPlanetInContract _ _); reflexivity.
Qed.

Lemma addNewChunk_loop (locations : list WorldLocation) (s : St) :
  AddLocationKeepsContract ->
  forM_ locations addNewChunk_body s
  = (Normal tt,
     set_scheduled
       (scheduled s ++ (loc_hash <$> knownOnLedger (entityStore s) locations))
       (set_calls
          (calls s ++ ((fun l => CRead (GetPlanetById (loc_hash l)))
                         <$> knownOnLedger (entityStore s) locations))
          (set_entityStore (addLocations (entityStore s) locations) s))).
Proof.
  intros Hlaw. revert s.
  induction locations as [|l locations IH]; intros s.
  - destruct s. cbn. unfold M_ret, set_scheduled, set_calls, set_entityStore.
    cbn. by rewrite !app_nil_r.
  - cbn [forM_]. rewrite bind_run, addNewChunk_body_run. cbv zeta.
    rewrite (Hlaw l (loc_hash l)), IH.
    destruct s as [g acc pl hr wr mm term cd ls cs sch].
    cbn [knownOnLedger List.filter addLocations foldl entityStore].
    fold (knownOnLedger g locations).
    fold (addLocations (es_addPlanetLocation l g) locations).
    destruct (es_isPlanetInContract (loc_hash l) g) eqn:E;
      unfold set_scheduled, set_calls, set_entityStore;
      cbn [entityStore calls scheduled account players hashRate worldRadius
           minerManager terminal LOCATION_REVEAL_COOLDOWN localStorage];
      rewrite (knownOnLedger_add l g locations Hlaw);
      cbn [fmap list_fmap]; rewrite <- ?app_assoc; reflexivity.
Qed.

(** C7. [addNewChunk] records every location of the chunk in the entity
    store and starts a refresh from the ledger for exactly the locations
    whose id the store knows to be on the ledger: their first read is
    issued, in the order of the chunk, and the refresh is scheduled.  For a
    location whose id is not known on the ledger nothing is read. *)
Theorem addNewChunk_refreshes_known chunk (s : St) :
  AddLocationKeepsContract ->
  let s' := exec (addNewChunk chunk) s in
  let known := knownOnLedger (entityStore s) (planetLocations chunk) in
  result (addNewChunk chunk) s = Normal tt
  /\ entityStore s' = addLocations (entityStore s) (planetLocations chunk)
  /\ scheduled s' = scheduled s ++ (loc_hash <$> known)
  /\ newCalls s s'
     = CChunkStore (AddChunk chunk true)
       :: ((fun l => CRead (GetPlanetById (loc_hash l))) <$> known)
  /\ forall l, l ∈ planetLocations chunk ->
       (CRead (GetPlanetById (loc_hash l)) ∈ newCalls s s'
        <-> es_isPlanetInContract (loc_hash l) (entityStore s) = true).
Proof.
  intros Hlaw s' known. subst s'.
  unfold addNewChunk, exec, result. rewrite bind_run. cbn [call modify].
  rewrite addNewChunk_loop by assumption.
  destruct s as [g acc pl hr wr mm term cd ls cs sch].
  unfold newCalls. cbn [fst snd entityStore scheduled calls set_scheduled set_calls set_entityStore].
  rewrite <- app_assoc, drop_app_length. cbn [app]. fold known.
  repeat split; try reflexivity.
  - intros [Hin|Hin]%elem_of_cons; [discriminate|].
    apply list_elem_of_fmap in Hin as (l' & E & Hl').
    injection E as E. rewrite E.
    apply list_elem_of_In, List.filter_In in Hl'. apply Hl'.
  - intros Hc. apply elem_of_cons. right.
    apply list_elem_of_fmap. exists l. split; [reflexivity|].
    apply list_elem_of_In, List.filter_In. split; [|exact Hc].
    by apply list_elem_of_In.
Qed.

Lemma forM_returns {A} (l : list A) (body : A -> M St unit) :
  (forall a s, exists s', body a s = (Normal tt, s')) ->
  forall s, exists s', forM_ l body s = (Normal tt, s').
Proof.
  intros Hbody. induction l as [|a l IH]; intros s; cbn [forM_].
  - by eexists.
  - rewrite bind_run. destruct (Hbody a s) as [s1 ->]. apply IH.
Qed.

Lemma addNewChunk_returns chunk (s : St) :
  exists s', addNewChunk chunk s = (Normal tt, s').
Proof.
  unfold addNewChunk. rewrite bind_run. cbn [call modify].
  apply forM_returns. intros l s0. rewrite addNewChunk_body_run. by eexists.
Qed.

(** C8. After the listener of the miner's discovery event has run for a
    chunk and its mining time in milliseconds, [getHashesPerSec] returns the
    square of the side length of the chunk's footprint divided by the
    mining time in seconds: [sideLength ** 2 / (miningTimeMillis / 1000)]. *)
Theorem hashRate_after_discovery chunk miningTimeMillis (s : St) :
  result (DiscoveredNewChunk_listener chunk miningTimeMillis) s = Normal tt
  /\ result getHashesPerSec
       (exec (DiscoveredNewChunk_listener chunk miningTimeMillis) s)
     = Normal (num_div
                 (num_pow (num_lit (sideLength (chunkFootprint chunk)))
                          (num_lit 2))
                 (num_div (num_lit miningTimeMillis) (num_lit 1000))).
Proof.
  unfold DiscoveredNewChunk_listener, getHashesPerSec, result, exec.
  rewrite bind_run. destruct (addNewChunk_returns chunk s) as [s1 ->].
  mrun. split; reflexivity.
Qed.

(** *** What leaves the hash rate alone *)

Lemma Keeps_ret {A B} (f : St -> B) (a : A) : Keeps f (mret a : M St A).
Proof. by intros s. Qed.

Lemma Keeps_throw {A B} (f : St -> B) (e : Error) : Keeps f (throw e : M St A).
Proof. by intros s. Qed.

Lemma Keeps_gets {A B} (f : St -> B) (h : St -> A) : Keeps f (gets h).
Proof. by intros s. Qed.

Lemma Keeps_bind {A A' B} (f : St -> B) (m : M St A) (k : A -> M St A') :
  Keeps f m -> (forall a, Keeps f (k a)) -> Keeps f (m ≫= k).
Proof.
  intros Hm Hk s. unfold exec. rewrite bind_run.
  specialize (Hm s). unfold exec in Hm.
  destruct (m s) as [[a|e] s1]; cbn [snd] in *; [|exact Hm].
  rewrite <- Hm. apply Hk.
Qed.

Lemma Keeps_forM {A B} (f : St -> B) (l : list A) (body : A -> M St unit) :
  (forall a, Keeps f (body a)) -> Keeps f (forM_ l body).
Proof.
  intros Hbody. induction l as [|a l IH]; cbn [forM_].
  - apply Keeps_ret.
  - apply Keeps_bind; auto.
Qed.

Lemma Keeps_modify {B} (f : St -> B) (h : St -> St) :
  (forall s, f (h s) = f s) -> Keeps f (modify h).
Proof. intros Hh s. apply Hh. Qed.

Lemma Keeps_storeGet {A B} (f : St -> B) (h : G -> A * G) :
  (forall g s, f (set_entityStore g s) = f s) -> Keeps f (storeGet h).
Proof.
  intros Hh s. unfold exec, storeGet.
  destruct (h (entityStore s)) as [a g]. apply Hh.
Qed.

Ltac head_of t :=
  lazymatch t with
  | ?f _ => head_of f
  | _ => t
  end.

(** One step of the search for what a method does to [hashRate]. *)
Ltac keeps_step :=
  lazymatch goal with
  | |- Keeps _ (mbind _ _) => apply Keeps_bind; [|intros ?]
  | |- Keeps _ (mret _) => apply Keeps_ret
  | |- Keeps _ (throw _) => apply Keeps_throw
  | |- Keeps _ (gets _) => apply Keeps_gets
  | |- Keeps _ (modify _) => apply Keeps_modify; intros ?; reflexivity
  | |- Keeps _ (storeGet _) => apply Keeps_storeGet; intros ? ?; reflexivity
  | |- Keeps _ (forM_ _ _) => apply Keeps_forM; intros ?
  | |- Keeps _ (match ?x with _ => _ end) => destruct x
  | |- Keeps _ (let _ := _ in _) => cbv zeta
  | |- Keeps _ (let '(_, _) := ?x in _) => destruct x
  | |- Keeps _ ((fun _ => _) _) => cbv beta
  | |- Keeps _ ?m =>
      let h := head_of m in
      unfold h
  end.

Ltac keeps := repeat keeps_step.

Lemma Keeps_hashRate_run (ev : Event) :
  isDiscovery ev = false -> ev <> EvStopExplore ->
  Keeps (hashRate : St -> number) (run ev).
Proof.
  intros Hd Hs. destruct ev; try discriminate; try congruence;
    cbn [run]; keeps.
Qed.

Lemma step_keeps_zero (s : St) (ev : Event) :
  isDiscovery ev = false ->
  hashRate s = num_lit 0 -> hashRate (step s ev) = num_lit 0.
Proof.
  intros Hd Hz.
  destruct ev; try discriminate Hd;
    try (unfold step;
         rewrite Keeps_hashRate_run by (reflexivity || discriminate);
         exact Hz).
  unfold step, exec. cbn [run]. unfold stopExplore. mrun.
  destruct (minerManager s); [reflexivity | exact Hz].
Qed.

Lemma steps_keep_zero (evs : list Event) (s : St) :
  forallb (fun ev => negb (isDiscovery ev)) evs = true ->
  hashRate s = num_lit 0 -> hashRate (steps s evs) = num_lit 0.
Proof.
  revert s. induction evs as [|ev evs IH]; intros s Hall Hz; [exact Hz|].
  cbn in Hall. apply andb_true_iff in Hall as [Hev Hall].
  cbn [steps foldl]. apply IH; [exact Hall|].
  apply step_keeps_zero; [|exact Hz]. by destruct (isDiscovery ev).
Qed.

(** C10. When there is a miner, [stopExplore] sets the hash rate that
    [getHashesPerSec] reports to 0, and the rate stays 0 through every
    sequence of events that contains no discovery of a chunk;
    [startExplore] leaves the reported rate as it is. *)
Theorem stopExplore_zeroes_hashRate (s : St) (miner : MinerManager)
    (evs : list Event) :
  minerManager s = Some miner ->
  forallb (fun ev => negb (isDiscovery ev)) evs = true ->
  result getHashesPerSec (exec stopExplore s) = Normal (num_lit 0)
  /\ result getHashesPerSec (steps (exec stopExplore s) evs)
     = Normal (num_lit 0)
  /\ result getHashesPerSec (exec startExplore s)
     = result getHashesPerSec s.
Proof.
  intros Hminer Hall.
  assert (Hstop : hashRate (exec stopExplore s) = num_lit 0).
  { unfold stopExplore. mrun. by rewrite Hminer. }
  unfold getHashesPerSec, result, gets. cbn [fst].
  split; [by rewrite Hstop|].
  split; [by rewrite steps_keep_zero|].
  f_equal. unfold startExplore. mrun. by destruct (minerManager s).
Qed.



(** C2 (as the code has it).  Let a reveal be unconfirmed: on the planet
    itself, or on any planet.  Then a call of [revealLocation] never applies
    an intent to the entity store, never calls the proof generator or the
    writer of the ledger, and leaves [localStorage] alone.  While the game
    has not ended the call throws; once the game has ended it returns
    without an error, after the terminal was told that the game has ended. *)
Theorem revealLocation_rejects_second_reveal now actionId planetId (s : St) :
  LookupKeepsReveal ->
  let looked := es_getPlanetWithId now planetId true (entityStore s) in
  (exists planet,
      fst looked = Some planet /\ is_Some (p_unconfirmedReveal planet))
  \/ is_Some (es_getUnconfirmedReveal (entityStore s)) ->
  let r := revealLocation now actionId planetId s in
  (entityStore (snd r) = entityStore s \/ entityStore (snd r) = snd looked)
  /\ localStorage (snd r) = localStorage s
  /\ (pastEndTime now = false ->
      throws (fst r) = true /\ calls (snd r) = calls s)
  /\ (pastEndTime now = true ->
      fst r = Normal tt
      /\ entityStore (snd r) = entityStore s
      /\ newCalls s (snd r)
         = if terminal s then [CTerminal GameEndedLine] else []).
Proof.
  intros Hlaw looked Hpending r. subst r.
  pose proof (Hlaw now planetId true (entityStore s)) as Hkeep.
  fold looked in Hkeep.
  destruct s as [g acc pl hr wr mm term cd ls cs sch].
  cbn [entityStore] in *.
  unfold revealLocation, checkGameHasEnded, newCalls.
  destruct (pastEndTime now) eqn:Eend.
  - (* the game has ended *)
    destruct term; mrun; simpl_state;
      rewrite ?drop_app_length, ?drop_all;
      repeat split; intros; try discriminate; auto.
  - mrun. cbn [account].
    destruct acc as [account|];
      [|cbn; repeat split; intros; try discriminate; auto].
    cbn [entityStore]. fold looked.
    destruct looked as [[planet|] g'] eqn:El; cbn [fst snd] in *;
      [|cbn; repeat split; intros; try discriminate; auto].
    destruct (p_location planet) as [location|];
      [|cbn; repeat split; intros; try discriminate; auto].
    destruct (p_coordsRevealed planet);
      [cbn; repeat split; intros; try discriminate; auto|].
    destruct (p_unconfirmedReveal planet) as [pending|] eqn:Ep.
    + rewrite bool_decide_eq_true_2 by eauto.
      cbn; repeat split; intros; try discriminate; auto.
    + rewrite bool_decide_eq_false_2 by (intros [? ?]; discriminate).
      cbn [entityStore set_entityStore].
      assert (Hsome : is_Some (es_getUnconfirmedReveal g')).
      { rewrite Hkeep. destruct Hpending as [(p & Hp & Hflag)|Hr]; [|exact Hr].
        injection Hp as <-. rewrite Ep in Hflag. by destruct Hflag. }
      rewrite bool_decide_eq_true_2 by exact Hsome.
      cbn; repeat split; intros; try discriminate; auto.
Qed.

End Proofs.

(** ** The model of the entity store meets the manager's expectations *)

Lemma GameObjects_ClearUnsets : ClearUnsets (G := GameObjects).
Proof.
  intros txIntent g. cbn. apply bool_decide_eq_false_2.
  rewrite lookup_delete_eq. by intros [? ?].
Qed.

Lemma GameObjects_AddLocationKeepsContract :
  AddLocationKeepsContract (G := GameObjects).
Proof. intros location id g. reflexivity. Qed.


Lemma GameObjects_LookupKeepsReveal : LookupKeepsReveal (G := GameObjects).
Proof.
  intros now id upd g. cbn. unfold go_getPlanetWithId.
  destruct (go_planets g !! id); [|reflexivity]. by destruct upd.
Qed.

(** ** The theorems at work in the small world *)

Example refetch_of_a_confirmed_reveal :
  newCalls demoState
    (exec (TxConfirmed_listener demoLedger
             {| tx_intent := pendingReveal; txHash := "0xbeef" |}) demoState)
  = [CChunkStore (OnEthTxComplete "0xbeef"); CRead (GetPlanetById "00a1");
     CRead (GetArrivalsForPlanet "00a1");
     CRead (BulkGetArtifactsOnPlanets ["00a1"]);
     CRead (GetRevealedCoordsByIdIfExists "00a1");
     CTerminal (TxConfirmLine {| tx_intent := pendingReveal; txHash := "0xbeef" |});
     CNotify (NTxConfirm {| tx_intent := pendingReveal; txHash := "0xbeef" |})].
Proof. reflexivity. Qed.

Example hashRate_16_in_two_seconds :
  result getHashesPerSec (exec (DiscoveredNewChunk_listener demoChunk 2000) demoState)
  = Normal (Fin 128 1).
Proof. reflexivity. Qed.

Example hashRate_of_an_instant_chunk :
  result getHashesPerSec (exec (DiscoveredNewChunk_listener demoChunk 0) demoState)
  = Normal (Infinity false).
Proof. reflexivity. Qed.

Example move_in_bounds_asks_for_a_proof :
  calls (exec (move duringTheGame "act3" "00a1" "00a1" 50 0 None false) demoState)
  = [CSnark (GetMoveArgs 3 4 3 4 100 0)].
Proof. reflexivity. Qed.

(** The scenario of the duplicate reveal: the first [revealLocation] applies
    its intent and asks for the proof; the second one, made before the first
    is cleared, throws and calls nobody; so does a reveal of another planet. *)
Example second_reveal_is_rejected :
  let first := revealLocation duringTheGame "act1" "00a1" quietState in
  fst first = Normal tt
  /\ calls (snd first) = [CSnark (GetRevealArgs 3 4)]
  /\ es_isUnconfirmed pendingReveal (entityStore (snd first)) = true
  /\ revealLocation duringTheGame "act2" "00a1" (snd first)
     = (Thrown "you're already revealing this planet's location", snd first)
  /\ result (revealLocation duringTheGame "act2" "00d4") (snd first)
     = Thrown "you're already broadcasting coordinates".
Proof. vm_compute. repeat split; reflexivity. Qed.

(** The life of a move from the home planet to its neighbour: the intent is
    applied and the proof asked for; the proof arrives and the move is
    written; the ledger confirms, both planets are read again in bulk and the
    intent is cleared. *)
Example move_lifecycle :
  let txIntent := UnconfirmedMove "act7" "00a1" "00d4" 50 0 None in
  let moved := exec (move duringTheGame "act7" "00a1" "00d4" 50 0 None false)
                 quietState in
  let written := step moved (EvMoveSettled txIntent "act7" 50 0 None
                               (Resolved [9]) (Resolved tt)) in
  let confirmed := step written
                     (EvTxConfirmed demoLedger
                        {| tx_intent := txIntent; txHash := "0x02" |}) in
  calls moved = [CSnark (GetMoveArgs 3 4 10 20 100 18)]
  /\ es_isUnconfirmed txIntent (entityStore moved) = true
  /\ newCalls moved written
     = [CTerminal (SnarkArgsLines MOVE [9]); CWrite (WMove "act7" [9] 50 0 None)]
  /\ readsIn (newCalls written confirmed)
     = [GetAllArrivals ["00a1"; "00d4"]; BulkGetPlanets ["00a1"; "00d4"];
        BulkGetArtifactsOnPlanets ["00a1"; "00d4"]]
  /\ es_isUnconfirmed txIntent (entityStore confirmed) = false.
Proof. vm_compute. repeat split; reflexivity. Qed.

(** The second reveal of the home planet during the game: the theorem of C2
    applied. *)
Lemma revealLocation_rejects_second_reveal_witness :
  LookupKeepsReveal (G := GameObjects)
  /\ (exists planet,
        fst (es_getPlanetWithId duringTheGame "00a1" true (entityStore demoState))
        = Some planet
        /\ is_Some (p_unconfirmedReveal planet))
  /\ throws (fst (revealLocation duringTheGame "act2" "00a1" demoState)) = true
  /\ calls (snd (revealLocation duringTheGame "act2" "00a1" demoState))
     = calls demoState.
Proof.
  split; [exact GameObjects_LookupKeepsReveal|].
  split; [eexists; split; [reflexivity | eexists; reflexivity]|].
  apply (revealLocation_rejects_second_reveal duringTheGame "act2" "00a1"
           demoState GameObjects_LookupKeepsReveal).
  - left. eexists; split; [reflexivity | eexists; reflexivity].
  - reflexivity.
Defined.

(** C2, the claim as it is stated, fails once the game has ended: the home
    planet has an unconfirmed reveal, and a second [revealLocation] for it
    returns without throwing. *)
Lemma revealLocation_after_the_end_returns :
  (exists planet,
      go_planets (entityStore demoState) !! "00a1" = Some planet
      /\ is_Some (p_unconfirmedReveal planet))
  /\ is_Some (es_getUnconfirmedReveal (entityStore demoState))
  /\ throws (result (revealLocation afterTheEnd "act2" "00a1") demoState) = false.
Proof.
  split; [eexists; split; [reflexivity | eexists; reflexivity]|].
  split; [eexists; reflexivity | reflexivity].
Qed.



(** A proof that fails for a reveal: the theorem of C5 applied. *)
Lemma submit_failure_clears_witness :
  submitFailure (EvRevealSettled pendingReveal (Rejected "snark failed")
                   (Resolved tt))
  = Some (pendingReveal, "snark failed")
  /\ ClearUnsets (G := GameObjects)
  /\ es_isUnconfirmed pendingReveal
       (entityStore
          (step demoState
             (EvRevealSettled pendingReveal (Rejected "snark failed")
                (Resolved tt))))
     = false.
Proof.
  split; [reflexivity|]. split; [exact GameObjects_ClearUnsets|].
  apply (submit_failure_clears
           (EvRevealSettled pendingReveal (Rejected "snark failed") (Resolved tt))
           pendingReveal "snark failed" demoState);
    [reflexivity | exact GameObjects_ClearUnsets].
Defined.


(** The chunk with one known and one unknown location: the theorem of C7
    applied. *)
Lemma addNewChunk_refreshes_known_witness :
  AddLocationKeepsContract (G := GameObjects)
  /\ scheduled (exec (addNewChunk demoChunk) demoState) = ["00a1"]
  /\ newCalls demoState (exec (addNewChunk demoChunk) demoState)
     = [CChunkStore (AddChunk demoChunk true); CRead (GetPlanetById "00a1")].
Proof.
  split; [exact GameObjects_AddLocationKeepsContract|].
  pose proof (addNewChunk_refreshes_known demoChunk demoState
                GameObjects_AddLocationKeepsContract)
    as (_ & _ & Hs & Hc & _).
  split; [exact Hs | exact Hc].
Defined.



(** The miner stopped, then started, a radius update and a revert: the
    theorem of C10 applied. *)
Lemma stopExplore_zeroes_hashRate_witness :
  minerManager demoState = Some MinerManagerHandle
  /\ forallb (fun ev => negb (isDiscovery ev))
       [EvStartExplore; EvSetRadius 120;
        EvTxReverted {| tx_intent := pendingReveal; txHash := "0xbeef" |}]
     = true
  /\ result getHashesPerSec
       (steps (exec stopExplore demoState)
          [EvStartExplore; EvSetRadius 120;
           EvTxReverted {| tx_intent := pendingReveal; txHash := "0xbeef" |}])
     = Normal (exact_lit 0).
Proof.
  split; [reflexivity|]. split; [reflexivity|].
  pose proof (stopExplore_zeroes_hashRate demoState MinerManagerHandle
                [EvStartExplore; EvSetRadius 120;
                 EvTxReverted {| tx_intent := pendingReveal;
                                 txHash := "0xbeef" |}]) as Hzero.
  destruct Hzero as (_ & Hstays & _); [reflexivity | reflexivity |].
  exact Hstays.
Defined.

(** ** More of the manager, proved *)

Section MoreProofs.
Context {number : Type} `{JsNumber number}.
Context {G : Type} `{EntityStore G}.
Context `{HashOracle}.
Context `{PlanetFields} `{ArtifactFields} `{Constants}.

Local Abbreviation St := (State number G).
Local Abbreviation Ss := (Session number G).

Ltac mrun :=
  cbv [mbind M_bind mret M_ret gets modify throw call store storeGet
       storeRead terminalDo exec result void];
  cbn [fst snd].

(* The setters and the projections, the innermost state first. *)
Ltac simpl_state :=
  cbv [set_calls set_entityStore set_localStorage set_hashRate
       set_worldRadius set_scheduled set_minerManager
       entityStore account players hashRate worldRadius minerManager
       terminal LOCATION_REVEAL_COOLDOWN localStorage calls scheduled];
  cbn [fst snd].

(* The operations of the monad as well, in the same pass. *)
Ltac run_state :=
  cbv [mbind M_bind mret M_ret gets modify throw call store storeGet
       storeRead terminalDo exec result void
       set_calls set_entityStore set_localStorage set_hashRate
       set_worldRadius set_scheduled set_minerManager
       entityStore account players hashRate worldRadius minerManager
       terminal LOCATION_REVEAL_COOLDOWN localStorage calls scheduled
       newCalls keyOf];
  cbn [fst snd].

(** *** Refreshing from the ledger *)

Lemma forM_store_fold {A} (l : list A) (body : A -> M St unit)
    (step : G -> A -> G) :
  Forall (fun a => forall s : St,
            body a s = (Normal tt, set_entityStore (step (entityStore s) a) s))
         l ->
  forall s : St,
    forM_ l body s
    = (Normal tt, set_entityStore (foldl step (entityStore s) l) s).
Proof.
  induction 1 as [|a l Ha _ IH]; intros s; cbn [forM_ foldl].
  - by destruct s.
  - rewrite bind_run, Ha, IH. by destruct s.
Qed.

Lemma hardRefreshPlanet_resume_run ledger planetId (s : St) :
  hardRefreshPlanet_resume ledger planetId s
  = (Normal tt,
     set_calls (calls s ++ (CRead <$> planetReads ledger planetId))
       (set_entityStore (hardRefreshed ledger planetId (entityStore s)) s)).
Proof.
  unfold hardRefreshPlanet_resume, hardRefreshed, planetReads.
  destruct (l_planet ledger planetId) as [planet|].
  - cbn [bulkGetArtifactsOnPlanets fmap list_fmap lookup list_lookup].
    rewrite !bind_run. cbn [call modify]. rewrite !bind_run. cbn [call modify].
    rewrite !bind_run. cbn [call modify]. rewrite bind_run. cbn [store modify].
    rewrite (forM_store_fold _ _
               (fun g a => es_replaceArtifactFromContractData a g)).
    + destruct s; simpl_state. rewrite <- !app_assoc. reflexivity.
    + apply Forall_forall. intros a _ s'. reflexivity.
  - destruct s; simpl_state. cbn. unfold M_ret. by rewrite app_nil_r.
Qed.

Lemma hardRefreshPlanet_run ledger planetId (s : St) :
  hardRefreshPlanet ledger planetId s
  = (Normal tt,
     set_calls (calls s ++ (CRead <$> GetPlanetById planetId
                                      :: planetReads ledger planetId))
       (set_entityStore (hardRefreshed ledger planetId (entityStore s)) s)).
Proof.
  unfold hardRefreshPlanet, hardRefreshPlanet_start.
  rewrite bind_run. cbn [call modify].
  rewrite hardRefreshPlanet_resume_run.
  destruct s; simpl_state. cbn [fmap list_fmap].
  rewrite <- app_assoc. reflexivity.
Qed.


(** The voyages are grouped by destination, among the keys of the map. *)
Lemma addVoyage_fold (voyages : list QueuedArrival)
    (m : gmap LocationId (list QueuedArrival)) (id : LocationId) :
  foldl addVoyage m voyages !! id
  = (fun l => l ++ voyagesTo id voyages) <$> m !! id.
Proof.
  revert m. induction voyages as [|v voyages IH]; intros m; cbn [foldl].
  - cbn. destruct (m !! id); cbn; [by rewrite app_nil_r|done].
  - rewrite IH. unfold addVoyage at 1. unfold voyagesTo. cbn [List.filter].
    destruct (m !! toPlanet v) as [l|] eqn:E.
    + destruct (decide (toPlanet v = id)) as [Heq|Hne].
      * rewrite Heq in *. rewrite lookup_insert_eq, E. cbn.
        rewrite bool_decide_eq_true_2 by done.
        by rewrite <- app_assoc.
      * rewrite lookup_insert_ne by done.
        by rewrite bool_decide_eq_false_2.
    + destruct (decide (toPlanet v = id)) as [Heq|Hne].
      * rewrite Heq in *. by rewrite E.
      * by rewrite bool_decide_eq_false_2.
Qed.

Lemma planetVoyageMap_lookup (planetsToUpdateMap : gmap LocationId Planet)
    (allVoyages : list QueuedArrival) (id : LocationId) :
  foldl addVoyage ((fun _ => []) <$> planetsToUpdateMap) allVoyages !! id
  = if bool_decide (is_Some (planetsToUpdateMap !! id))
    then Some (voyagesTo id allVoyages)
    else None.
Proof.
  rewrite addVoyage_fold, lookup_fmap.
  destruct (planetsToUpdateMap !! id) as [p|]; cbn [fmap option_fmap option_map].
  - by rewrite bool_decide_eq_true_2.
  - rewrite bool_decide_eq_false_2; [done|]. by intros [? ?].
Qed.

(** X2. The map of voyages that [bulkHardRefreshPlanets] builds has exactly
    the ids of the planets that the ledger returned as its keys, and under
    each of them the voyages that arrive at that planet, in the order of the
    ledger's answer; a voyage to any other planet is dropped. *)
Theorem planetVoyageMap_groups (planetsToUpdateMap : gmap LocationId Planet)
    (allVoyages : list QueuedArrival) (id : LocationId) :
  foldl addVoyage ((fun _ => []) <$> planetsToUpdateMap) allVoyages !! id
  = if bool_decide (is_Some (planetsToUpdateMap !! id))
    then Some (voyagesTo id allVoyages)
    else None.
Proof. apply planetVoyageMap_lookup. Qed.

Lemma zip_seq_lookup_eq {A B} (f : A -> B) (l : list A) (start : nat) :
  Forall (fun '(i, a) => (f <$> l) !! (i - start)%nat = Some (f a)
                         /\ (start <= i)%nat)
         (zip (seq start (length l)) l).
Proof.
  revert start. induction l as [|a l IH]; intros start; cbn; [constructor|].
  constructor.
  - rewrite Nat.sub_diag. split; [done | lia].
  - specialize (IH (S start)). eapply Forall_impl; [exact IH|].
    intros [i a'] (Hb & Hle). split; [|lia].
    replace (i - start)%nat with (S (i - S start)) by lia. done.
Qed.

Lemma foldl_zip_seq {A} (step : G -> A -> G) (l : list A) (start : nat) (g : G) :
  foldl (fun g (ia : nat * A) => step g ia.2) g (zip (seq start (length l)) l)
  = foldl step g l.
Proof.
  revert start g. induction l as [|a l IH]; intros start g; cbn; [done|].
  apply IH.
Qed.

Lemma bulkHardRefreshPlanets_resume_run ledger planetIds (s : St) :
  bulkHardRefreshPlanets_resume ledger planetIds s
  = (Normal tt,
     set_calls (calls s ++ (CRead <$> bulkReads planetIds))
       (set_entityStore (bulkRefreshed ledger planetIds (entityStore s)) s)).
Proof.
  unfold bulkHardRefreshPlanets_resume, bulkRefreshed, bulkReads.
  cbv zeta.
  rewrite bind_run. cbn [call modify]. rewrite bind_run. cbn [call modify].
  rewrite bind_run.
  rewrite (forM_store_fold _ _
    (fun g (ia : nat * LocationId) =>
       match l_planets ledger planetIds !! ia.2 with
       | Some planet =>
           if bool_decide (is_Some (l_planets ledger planetIds
                                      !! p_locationId planet))
           then es_replacePlanetFromContractData planet
                  (Some (voyagesTo (p_locationId planet)
                           (l_allArrivals ledger planetIds)))
                  (Some (art_id <$> l_artifactsOn ledger ia.2)) None g
           else g
       | None => g
       end)).
  - rewrite (foldl_zip_seq
      (fun g planetId =>
         match l_planets ledger planetIds !! planetId with
         | Some planet =>
             if bool_decide (is_Some (l_planets ledger planetIds
                                        !! p_locationId planet))
             then es_replacePlanetFromContractData planet
                    (Some (voyagesTo (p_locationId planet)
                             (l_allArrivals ledger planetIds)))
                    (Some (art_id <$> l_artifactsOn ledger planetId)) None g
             else g
         | None => g
         end)).
    rewrite (forM_store_fold _ _
               (fun g a => es_replaceArtifactsFromContractData a g)).
    + unfold bulkGetArtifactsOnPlanets. rewrite foldl_fmap.
      destruct s; simpl_state. cbn [fmap list_fmap].
      rewrite <- !app_assoc. reflexivity.
    + apply Forall_forall. intros a _ s'. reflexivity.
  - pose proof (zip_seq_lookup_eq (l_artifactsOn ledger) planetIds 0) as Hz.
    eapply Forall_impl; [exact Hz|].
    intros [i planetId] (Hb & _) s'. rewrite Nat.sub_0_r in Hb.
    cbn [snd].
    destruct (l_planets ledger planetIds !! planetId) as [planet|];
      [|by destruct s'].
    rewrite planetVoyageMap_lookup.
    destruct (bool_decide _); [|by destruct s'].
    unfold bulkGetArtifactsOnPlanets. rewrite Hb. reflexivity.
Qed.

Lemma bulkHardRefreshPlanets_run ledger planetIds (s : St) :
  bulkHardRefreshPlanets ledger planetIds s
  = (Normal tt,
     set_calls (calls s ++ (CRead <$> GetAllArrivals planetIds
                                      :: bulkReads planetIds))
       (set_entityStore (bulkRefreshed ledger planetIds (entityStore s)) s)).
Proof.
  unfold bulkHardRefreshPlanets, bulkHardRefreshPlanets_start.
  rewrite bind_run. cbn [call modify].
  rewrite bulkHardRefreshPlanets_resume_run.
  destruct s; simpl_state. cbn [fmap list_fmap].
  rewrite <- app_assoc. reflexivity.
Qed.


(** *** Reading planets *)

Lemma mapM_app {A B} (f : A -> M St B) (l l' : list A) (s : St) :
  mapM f (l ++ l') s
  = (bs ← mapM f l; bs' ← mapM f l'; mret (bs ++ bs')) s.
Proof.
  revert s. induction l as [|a l IH]; intros s; cbn [mapM app].
  - cbv [mbind M_bind mret M_ret]. cbn [app].
    destruct (mapM f l' s) as [[bs'|e] s']; reflexivity.
  - rewrite !bind_run. destruct (f a s) as [[b|e] s1]; [|reflexivity].
    rewrite !bind_run, IH. cbv [mbind M_bind mret M_ret].
    destruct (mapM f l s1) as [[bs|e] s2]; [|reflexivity].
    destruct (mapM f l' s2) as [[bs'|e] s3]; reflexivity.
Qed.

Lemma omap_length_le {A B} (f : A -> option B) (l : list A) :
  (length (omap f l) <= length l)%nat.
Proof.
  induction l as [|a l IH]; cbn; [lia|]. destruct (f a); cbn; lia.
Qed.

Lemma getPlanetWithId_store now planetId (s : St) :
  exists p g,
    getPlanetWithId now planetId s = (Normal p, set_entityStore g s)
    /\ (forall planet, p = Some planet ->
          exists id g0, planetId = Some id /\ truthy id = true
                        /\ (es_getPlanetWithId now id true g0).1 = Some planet).
Proof.
  unfold getPlanetWithId.
  destruct planetId as [id|]; [destruct (truthy id) eqn:Hid|].
  - unfold storeGet.
    destruct (es_getPlanetWithId now id true (entityStore s)) as [p g] eqn:E.
    exists p, g. split; [done|]. intros planet ->.
    exists id, (entityStore s). by rewrite E.
  - exists None, (entityStore s). split; [by destruct s|done].
  - exists None, (entityStore s). split; [by destruct s|done].
Qed.

Lemma mapM_getPlanetWithId now (ids : list LocationId) (s : St) :
  exists found g,
    mapM (fun id => getPlanetWithId now (Some id)) ids s
    = (Normal found, set_entityStore g s)
    /\ length found = length ids
    /\ (forall planet, Some planet ∈ found ->
          exists id g0, id ∈ ids /\ truthy id = true
                        /\ (es_getPlanetWithId now id true g0).1 = Some planet).
Proof.
  revert s. induction ids as [|id ids IH]; intros s; cbn [mapM].
  - exists [], (entityStore s). split; [by destruct s|].
    split; [done|]. intros planet Hin. by apply elem_of_nil in Hin.
  - destruct (getPlanetWithId_store now (Some id) s) as (p & g & Hp & Hfrom).
    destruct (IH (set_entityStore g s))
      as (found & g' & Hfound & Hlen & Hall).
    exists (p :: found), g'. rewrite bind_run, Hp, bind_run, Hfound.
    split; [by destruct s|]. split; [cbn; by rewrite Hlen|].
    intros planet [Hin|Hin]%elem_of_cons.
    + destruct (Hfrom planet (eq_sym Hin)) as (id' & g0 & E & Ht & Hg).
      injection E as <-. exists id, g0. split; [apply elem_of_cons; by left|done].
    + destruct (Hall planet Hin) as (id' & g0 & Hid & Ht & Hg).
      exists id', g0. split; [apply elem_of_cons; by right|done].
Qed.

(** X4. [getPlanetsWithIds] never fails and changes nothing but the entity
    store (the planets it brings up to date).  It returns at most one planet
    per id, every planet it returns is the answer of the store to one of the
    ids, none of them the empty id, and reading a list of ids in one call is
    reading its parts one after the other. *)
Theorem getPlanetsWithIds_spec now (ids ids' : list LocationId) (s : St) :
  (exists planets g,
     getPlanetsWithIds now ids s = (Normal planets, set_entityStore g s)
     /\ (length planets <= length ids)%nat
     /\ forall planet, planet ∈ planets ->
          exists id g0, id ∈ ids /\ truthy id = true
                        /\ (es_getPlanetWithId now id true g0).1 = Some planet)
  /\ getPlanetsWithIds now (ids ++ ids') s
     = (l ← getPlanetsWithIds now ids;
        l' ← getPlanetsWithIds now ids';
        mret (l ++ l')) s.
Proof.
  split.
  - destruct (mapM_getPlanetWithId now ids s)
      as (found & g & Hfound & Hlen & Hall).
    exists (omap (fun p : option Planet => p) found), g.
    unfold getPlanetsWithIds. rewrite bind_run, Hfound.
    split; [reflexivity|]. split; [rewrite <- Hlen; apply omap_length_le|].
    intros planet Hin. apply list_elem_of_omap in Hin as (p & Hin & ->).
    by apply Hall.
  - unfold getPlanetsWithIds. rewrite bind_run, mapM_app.
    destruct (mapM_getPlanetWithId now ids s) as (found & g & Hfound & _).
    destruct (mapM_getPlanetWithId now ids' (set_entityStore g s))
      as (found' & g' & Hfound' & _).
    cbv [mbind M_bind mret M_ret]. rewrite Hfound, Hfound'.
    by rewrite omap_app.
Qed.

(** *** Revealing a location *)

Lemma getNextBroadcastAvailableTimestamp_run now acc (s : St) :
  account s = Some acc ->
  getNextBroadcastAvailableTimestamp now s
  = (Normal (match zero_is_falsy (lastRevealTimestamp <$> players s !! acc) with
             | Some last => (last + LOCATION_REVEAL_COOLDOWN s) * 1000
             | None => now
             end), s).
Proof.
  intros Hacc. unfold getNextBroadcastAvailableTimestamp, myLastRevealTimestamp.
  mrun. rewrite Hacc.
  destruct (zero_is_falsy _); reflexivity.
Qed.

(** X5. Within the game, a reveal of a planet that can be revealed (known,
    with coordinates, not yet revealed, no reveal pending) is decided by the
    cooldown alone: it is rejected exactly when the current time is before
    the time that [getNextBroadcastAvailableTimestamp] reports.  At that
    time and later it goes through: the intent is recorded, the planet's id
    is left in [localStorage] and the proof of the planet's coordinates is
    asked for, and nothing is written to the ledger yet.  A player who has
    never revealed is never on cooldown. *)
Theorem revealLocation_cooldown now actionId planetId acc planet location g
    (s : St) :
  pastEndTime now = false ->
  account s = Some acc ->
  es_getPlanetWithId now planetId true (entityStore s) = (Some planet, g) ->
  p_location planet = Some location ->
  p_coordsRevealed planet = false ->
  p_unconfirmedReveal planet = None ->
  es_getUnconfirmedReveal g = None ->
  exists next,
    result (getNextBroadcastAvailableTimestamp now) s = Normal next
    /\ (zero_is_falsy (lastRevealTimestamp <$> players s !! acc) = None ->
        next = now)
    /\ revealLocation now actionId planetId s
       = if now <? next
         then (Thrown "still on cooldown for broadcasting",
               set_entityStore g s)
         else (Normal tt,
               set_calls
                 (calls s ++ [CSnark (GetRevealArgs (wc_x (loc_coords location))
                                        (wc_y (loc_coords location)))])
                 (set_localStorage
                    (<[keyOf s "revealLocationId" := planetId]>
                       (localStorage s))
                    (set_entityStore
                       (es_onTxIntent
                          (UnconfirmedReveal actionId planetId location) g)
                       s))).
Proof.
  intros Hend Hacc Hplanet Hloc Hrev Hflag Hpend.
  eexists. unfold result.
  rewrite (getNextBroadcastAvailableTimestamp_run now acc s Hacc).
  split; [reflexivity|]. split; [by intros ->|].
  unfold revealLocation, checkGameHasEnded. rewrite Hend.
  rewrite !bind_run. cbn [mret M_ret]. rewrite bind_run.
  cbn [gets]. rewrite Hacc. rewrite bind_run. unfold storeGet at 1.
  rewrite Hplanet, Hloc, Hrev, Hflag. cbn [bool_decide decide_rel].
  rewrite bool_decide_eq_false_2 by (by intros [? ?]).
  rewrite bind_run. unfold storeRead at 1. cbn [gets].
  replace (entityStore (set_entityStore g s)) with g by (by destruct s).
  rewrite Hpend. rewrite bool_decide_eq_false_2 by (by intros [? ?]).
  rewrite bind_run. unfold myLastRevealTimestamp at 1. cbn [gets].
  replace (players (set_entityStore g s)) with (players s) by (by destruct s).
  destruct (zero_is_falsy (lastRevealTimestamp <$> players s !! acc))
    as [last|] eqn:Hlast.
  - rewrite !bind_run.
    rewrite (getNextBroadcastAvailableTimestamp_run now acc) by (by destruct s).
    replace (players (set_entityStore g s)) with (players s) by (by destruct s).
    rewrite Hlast. cbn [mret M_ret].
    replace (LOCATION_REVEAL_COOLDOWN (set_entityStore g s))
      with (LOCATION_REVEAL_COOLDOWN s) by (by destruct s).
    destruct (now <? (last + LOCATION_REVEAL_COOLDOWN s) * 1000);
      [reflexivity|].
    unfold setItem, accountKey, handleTxIntent, keyOf. mrun.
    destruct s; simpl_state. reflexivity.
  - rewrite !bind_run. cbn [mret M_ret]. rewrite Z.ltb_irrefl.
    unfold setItem, accountKey, handleTxIntent, keyOf. mrun.
    destruct s; simpl_state. reflexivity.
Qed.

(** *** Moving *)




(** *** The methods that write to the ledger at once *)

Ltac unfold_submit :=
  cbv [depositArtifact withdrawArtifact activateArtifact deactivateArtifact
       upgrade checkGameHasEnded setItem accountKey
       depositArtifact_submit withdrawArtifact_submit activateArtifact_submit
       deactivateArtifact_submit upgrade_submit submitIntent catchIntentFail
       onTxIntentFail handleTxIntent intent_type settled].

Ltac all_or_nothing_case :=
  rewrite <- ?app_assoc, ?drop_app_length, ?drop_all; cbn [app List.filter
    is_write];
  first [ eexists; split; [left; reflexivity|];
          first [ left; split; reflexivity
                | right; repeat split; reflexivity ]
        | eexists; split; [right; reflexivity|];
          first [ left; split; reflexivity
                | right; repeat split; reflexivity ] ].

(** X8. All or nothing: on every input and at every time, each of
    [depositArtifact], [withdrawArtifact], [activateArtifact],
    [deactivateArtifact] and [upgrade] either records its intent in the
    entity store and hands exactly one write, its own, to the ledger, or
    records no intent and writes nothing.  When the write is rejected the
    recorded intent is cleared again. *)
Theorem submission_is_all_or_nothing now actionId planetId artifactId
    wormholeTo branch bypassChecks written (s : St) :
  allOrNothing now planetId
    (UnconfirmedDepositArtifact actionId planetId artifactId)
    (WDepositArtifact (UnconfirmedDepositArtifact actionId planetId artifactId))
    written
    (depositArtifact now actionId planetId artifactId bypassChecks written) s
  /\ allOrNothing now planetId
       (UnconfirmedWithdrawArtifact actionId planetId artifactId)
       (WWithdrawArtifact
          (UnconfirmedWithdrawArtifact actionId planetId artifactId))
       written
       (withdrawArtifact now actionId planetId artifactId bypassChecks written)
       s
  /\ allOrNothing now planetId
       (UnconfirmedActivateArtifact actionId planetId artifactId wormholeTo)
       (WActivateArtifact
          (UnconfirmedActivateArtifact actionId planetId artifactId wormholeTo))
       written
       (activateArtifact now actionId planetId artifactId wormholeTo
          bypassChecks written) s
  /\ allOrNothing now planetId
       (UnconfirmedDeactivateArtifact actionId planetId artifactId)
       (WDeactivateArtifact
          (UnconfirmedDeactivateArtifact actionId planetId artifactId))
       written
       (deactivateArtifact now actionId planetId artifactId bypassChecks
          written) s
  /\ allOrNothing now planetId
       (UnconfirmedUpgrade actionId planetId branch)
       (WUpgradePlanet planetId branch actionId)
       written
       (upgrade now actionId planetId branch written) s.
Proof.
  destruct s as [g acc pl hr wr mm term cd ls cs sch].
  unfold allOrNothing. cbv zeta.
  destruct (es_getPlanetWithId now planetId true g) as [planet g'] eqn:Hlook.
  destruct planet as [planet|], (truthy artifactId) eqn:Hid,
    (pastEndTime now) eqn:Hend, bypassChecks, term, written;
    (repeat match goal with |- _ /\ _ => split end);
    unfold_submit; rewrite ?Hend; run_state;
    repeat (progress (rewrite ?Hlook, ?Hid, ?Hend); run_state);
    all_or_nothing_case.
Qed.

Ltac sends_nothing_case :=
  unfold sendsNothing; run_state;
  rewrite <- ?app_assoc, ?drop_app_length, ?drop_all;
  repeat split; try reflexivity;
  repeat (apply Forall_cons; split; [split; reflexivity|]);
  apply Forall_nil_2.

(** X9. After the end of the game, [revealLocation], [move], [upgrade] and
    [withdrawArtifact] return without recording an intent, asking for a
    proof or writing to the ledger, whether [bypassChecks] is set or not,
    and so do [depositArtifact], [activateArtifact] and [deactivateArtifact]
    without [bypassChecks].  With [bypassChecks] these three still hand
    their write to the ledger, and [withdrawArtifact] still leaves its two
    entries in [localStorage] although it sends nothing. *)
Theorem no_submission_after_the_end now actionId planetId to artifactId
    wormholeTo branch forces silver artifactMoved bypassChecks written
    (s : St) :
  pastEndTime now = true ->
  sendsNothing (revealLocation now actionId planetId) s
  /\ sendsNothing (move now actionId planetId to forces silver artifactMoved
                     bypassChecks) s
  /\ sendsNothing (upgrade now actionId planetId branch written) s
  /\ sendsNothing (withdrawArtifact now actionId planetId artifactId
                     bypassChecks written) s
  /\ sendsNothing (depositArtifact now actionId planetId artifactId false
                     written) s
  /\ sendsNothing (activateArtifact now actionId planetId artifactId
                     wormholeTo false written) s
  /\ sendsNothing (deactivateArtifact now actionId planetId artifactId false
                     written) s
  /\ CWrite (WDepositArtifact
               (UnconfirmedDepositArtifact actionId planetId artifactId))
     ∈ newCalls s (exec (depositArtifact now actionId planetId artifactId true
                           written) s)
  /\ CWrite (WActivateArtifact
               (UnconfirmedActivateArtifact actionId planetId artifactId
                  wormholeTo))
     ∈ newCalls s (exec (activateArtifact now actionId planetId artifactId
                           wormholeTo true written) s)
  /\ CWrite (WDeactivateArtifact
               (UnconfirmedDeactivateArtifact actionId planetId artifactId))
     ∈ newCalls s (exec (deactivateArtifact now actionId planetId artifactId
                           true written) s)
  /\ localStorage (exec (withdrawArtifact now actionId planetId artifactId true
                           written) s)
     = <[keyOf s "withdrawArtifact" := artifactId]>
         (<[keyOf s "withdrawPlanet" := planetId]> (localStorage s)).
Proof.
  intros Hend.
  destruct s as [g acc pl hr wr mm term cd ls cs sch].
  repeat match goal with |- _ /\ _ => split end.
  - unfold revealLocation, checkGameHasEnded. rewrite Hend.
    destruct term; sends_nothing_case.
  - unfold move, checkGameHasEnded. rewrite Hend.
    destruct term; sends_nothing_case.
  - unfold_submit. rewrite Hend. destruct term; sends_nothing_case.
  - unfold_submit. rewrite Hend.
    destruct bypassChecks, term; sends_nothing_case.
  - unfold_submit. rewrite Hend. destruct term; sends_nothing_case.
  - unfold_submit. rewrite Hend. destruct term; sends_nothing_case.
  - unfold_submit. rewrite Hend. destruct term; sends_nothing_case.
  - unfold_submit. destruct term, written; run_state;
      rewrite <- ?app_assoc, ?drop_app_length; cbn [app];
      repeat first [apply list_elem_of_here | apply list_elem_of_further].
  - unfold_submit. destruct term, written; run_state;
      rewrite <- ?app_assoc, ?drop_app_length; cbn [app];
      repeat first [apply list_elem_of_here | apply list_elem_of_further].
  - unfold_submit. destruct term, written; run_state;
      rewrite <- ?app_assoc, ?drop_app_length; cbn [app];
      repeat first [apply list_elem_of_here | apply list_elem_of_further].
  - unfold_submit. rewrite Hend. unfold keyOf.
    destruct term; run_state; reflexivity.
Qed.

(** X10. What the artifact methods do with a planet that the store does not
    know, or with an empty artifact id, within the game and without
    [bypassChecks]: [activateArtifact] throws, [withdrawArtifact] reports
    the error on the console and returns, and [deactivateArtifact] throws
    for the unknown planet (it does not look at the artifact id).  In every
    case nothing is left in [localStorage], no intent is recorded and
    nothing is sent; the store is the one that the lookup left. *)
Theorem artifact_methods_validate now actionId planetId artifactId wormholeTo
    written planet g (s : St) :
  pastEndTime now = false ->
  es_getPlanetWithId now planetId true (entityStore s) = (planet, g) ->
  match planet with
  | None => True
  | Some _ => truthy artifactId = false
  end ->
  activateArtifact now actionId planetId artifactId wormholeTo false written s
  = (Thrown (match planet with
             | None => "tried to activate on an unknown planet"
             | Some _ => "must supply an artifact id"
             end), set_entityStore g s)
  /\ withdrawArtifact now actionId planetId artifactId false written s
     = (Normal tt,
        set_calls
          (calls s
           ++ [CConsoleError
                 (match planet with
                  | None => "tried to withdraw from unknown planet"
                  | Some _ => "must supply an artifact id"
                  end)])
          (set_entityStore g s))
  /\ (planet = None ->
      deactivateArtifact now actionId planetId artifactId false written s
      = (Thrown "tried to deactivate on an unknown planet",
         set_entityStore g s)).
Proof.
  intros Hend Hlook Hbad.
  destruct s as [g0 acc pl hr wr mm term cd ls cs sch].
  cbn [entityStore] in Hlook.
  repeat match goal with |- _ /\ _ => split end.
  - unfold_submit. rewrite Hend. run_state. rewrite Hlook.
    destruct planet; [rewrite Hbad|]; reflexivity.
  - unfold_submit. rewrite Hend. run_state. rewrite Hlook.
    destruct planet; [rewrite Hbad|]; reflexivity.
  - intros ->. unfold_submit. rewrite Hend. run_state. rewrite Hlook.
    reflexivity.
Qed.


(** *** Artifacts and wormholes *)

Lemma getArtifactsWithIds_run (artifactIds : list ArtifactId) (s : St) :
  getArtifactsWithIds artifactIds s
  = (Normal ((fun id => es_getArtifactById id (entityStore s)) <$> artifactIds),
     s).
Proof.
  unfold getArtifactsWithIds.
  induction artifactIds as [|id ids IH]; cbn [mapM fmap list_fmap];
    [reflexivity|].
  rewrite bind_run. unfold getArtifactWithId at 1, storeRead at 1. cbn [gets].
  rewrite bind_run, IH. reflexivity.
Qed.

Lemma getActiveArtifact_run (planet : Planet) (s : St) :
  getActiveArtifact planet s
  = (Normal (findActivated
               ((fun id => es_getArtifactById id (entityStore s))
                  <$> p_heldArtifactIds planet)), s).
Proof.
  unfold getActiveArtifact. by rewrite bind_run, getArtifactsWithIds_run.
Qed.

Lemma greaterRarityOf_comm (a b : option Artifact) (p q : Planet) :
  greaterRarityOf a b p q = greaterRarityOf b a q p.
Proof.
  unfold greaterRarityOf.
  destruct a as [a|], b as [b|]; cbn [isWormholeTo fmap option_fmap option_map];
    repeat match goal with
           | |- context [if ?c then _ else _] => destruct c
           end; try reflexivity.
  by rewrite Z.max_comm.
Qed.

Lemma tableAt_speed (r : Z) :
  tableAt speedUpgradesPerRarity r
  = (fun d => 5 * d) <$> tableAt rangeUpgradesPerRarity r.
Proof.
  unfold tableAt. destruct (r <? 0); [reflexivity|].
  destruct (Z.to_nat r) as [|[|[|[|[|[|n]]]]]]; reflexivity.
Qed.

(** X12. [getWormholeFactors] and [getActiveArtifact] only read.  The active
    artifact of a planet is the first activated one among the artifacts it
    holds.  The factors are the same for a pair of planets in either order;
    when there are factors, the active artifact of one of the two planets is
    a wormhole to the other, and the factor of the speed is five times the
    factor of the distance. *)
Theorem getWormholeFactors_symmetric (fromPlanet toPlanet : Planet) (s : St) :
  getActiveArtifact fromPlanet s
  = (Normal (activeArtifactOf fromPlanet (entityStore s)), s)
  /\ exec (getWormholeFactors fromPlanet toPlanet) s = s
  /\ result (getWormholeFactors fromPlanet toPlanet) s
     = result (getWormholeFactors toPlanet fromPlanet) s
  /\ forall factors,
       result (getWormholeFactors fromPlanet toPlanet) s
       = Normal (Some factors) ->
       speedFactor factors = (fun d => 5 * d) <$> distanceFactor factors
       /\ (isWormholeTo (activeArtifactOf fromPlanet (entityStore s))
             (p_locationId toPlanet) = true
           \/ isWormholeTo (activeArtifactOf toPlanet (entityStore s))
                (p_locationId fromPlanet) = true).
Proof.
  split; [apply getActiveArtifact_run|].
  unfold getWormholeFactors, exec, result.
  rewrite !bind_run, !getActiveArtifact_run, !bind_run, !getActiveArtifact_run.
  fold (activeArtifactOf fromPlanet (entityStore s)).
  fold (activeArtifactOf toPlanet (entityStore s)).
  rewrite (greaterRarityOf_comm (activeArtifactOf toPlanet (entityStore s))).
  set (a := activeArtifactOf fromPlanet (entityStore s)).
  set (b := activeArtifactOf toPlanet (entityStore s)).
  destruct (greaterRarityOf a b fromPlanet toPlanet) as [r|] eqn:Hr.
  - destruct ((r =? 0) || (r <=? ArtifactRarity_Unknown)).
    + split; [reflexivity|]. split; [reflexivity|].
      intros factors Hf; discriminate.
    + split; [reflexivity|]. split; [reflexivity|].
      intros factors Hf. cbn in Hf. injection Hf as <-.
      cbn [speedFactor distanceFactor]. split; [apply tableAt_speed|].
      unfold greaterRarityOf in Hr.
      destruct (isWormholeTo a (p_locationId toPlanet)); [by left|].
      destruct (isWormholeTo b (p_locationId fromPlanet)); [by right|].
      discriminate.
  - split; [reflexivity|]. split; [reflexivity|].
    intros factors Hf; discriminate.
Qed.

(** *** The countdown of the next reveal *)

(** X13. The two readers of the cooldown agree: without an account both
    throw; with one, [getNextRevealCountdownInfo] only reads, reports a
    reveal as going on exactly when the store has an unconfirmed reveal, and
    the time that [getNextBroadcastAvailableTimestamp] returns is the sum of
    the last reveal and the cooldown that the info reports, in milliseconds,
    or the current time for a player who has not revealed. *)
Theorem reveal_countdown_agrees (now : Z) (s : St) :
  match account s with
  | None =>
      result getNextRevealCountdownInfo s = Thrown "no account set"
      /\ result (getNextBroadcastAvailableTimestamp now) s
         = Thrown "no account set"
  | Some _ =>
      exists info,
        getNextRevealCountdownInfo s = (Normal info, s)
        /\ (currentlyRevealing info = true
            <-> is_Some (es_getUnconfirmedReveal (entityStore s)))
        /\ revealCooldownTime info = LOCATION_REVEAL_COOLDOWN s
        /\ getNextBroadcastAvailableTimestamp now s
           = (Normal (match rci_myLastRevealTimestamp info with
                      | Some last => (last + revealCooldownTime info) * 1000
                      | None => now
                      end), s)
  end.
Proof.
  destruct (account s) as [acc|] eqn:Hacc.
  - eexists. unfold getNextRevealCountdownInfo, myLastRevealTimestamp.
    split; [mrun; rewrite Hacc; reflexivity|].
    cbn [currentlyRevealing revealCooldownTime rci_myLastRevealTimestamp].
    split; [apply bool_decide_eq_true|]. split; [reflexivity|].
    apply (getNextBroadcastAvailableTimestamp_run now acc s Hacc).
  - unfold getNextRevealCountdownInfo, getNextBroadcastAvailableTimestamp.
    mrun. rewrite Hacc. by split.
Qed.

(** *** The listeners of the ledger's events *)

Lemma bind_run_session {A B} (m : M Ss A) (f : A -> M Ss B) (ss : Ss) :
  (m ≫= f) ss = match m ss with
                | (Normal a, ss') => f a ss'
                | (Thrown e, ss') => (Thrown e, ss')
                end.
Proof. reflexivity. Qed.

Lemma liftManager_run {A} (m : M St A) (ss : Ss) :
  liftManager m ss
  = ((m (manager ss)).1,
     {| manager := (m (manager ss)).2; signals := signals ss;
        scheduledBulk := scheduledBulk ss |}).
Proof. unfold liftManager. by destruct (m (manager ss)). Qed.

Lemma storeGet_run {A} (f : G -> A * G) (s : St) :
  storeGet f s
  = (Normal (f (entityStore s)).1, set_entityStore (f (entityStore s)).2 s).
Proof. unfold storeGet. by destruct (f (entityStore s)). Qed.

Ltac run_session :=
  cbv [mbind M_bind mret M_ret gets modify throw call store storeGet
       storeRead terminalDo exec result void signal terminalPrintln liftManager
       refreshedSession manager signals scheduledBulk
       set_calls set_entityStore set_localStorage set_hashRate
       set_worldRadius set_scheduled set_minerManager
       entityStore account players hashRate worldRadius minerManager
       terminal LOCATION_REVEAL_COOLDOWN localStorage calls scheduled
       newCalls keyOf];
  cbn [fst snd].

Lemma hardRefreshArtifact_run ledger artifactId (s : St) :
  hardRefreshArtifact ledger artifactId s
  = (Normal tt,
     set_calls (calls s ++ [CRead (GetArtifactById artifactId)])
       (set_entityStore (artifactRefreshed ledger artifactId (entityStore s))
          s)).
Proof.
  unfold hardRefreshArtifact, hardRefreshArtifact_start,
    hardRefreshArtifact_resume, artifactRefreshed.
  destruct s. destruct (l_artifact ledger artifactId); reflexivity.
Qed.

(** X14. The listeners of [PlanetUpdate] and [ArrivalQueued] go to the
    ledger only for planets of the local map: the planet (for an arrival,
    the destination alone) must be known to the store with its location.
    Then the planet is refreshed (for an arrival, the origin and the
    destination in bulk) and [PlanetUpdate] is emitted after the reads;
    otherwise nothing is read and nothing is emitted, and the lookup is all
    that happened to the store. *)
Theorem planet_events_refresh_the_local_map ledger now planetId arrivalId
    fromId toId (ss : Ss) :
  let looked id := es_getPlanetWithId now id true (entityStore (manager ss)) in
  PlanetUpdate_listener ledger now planetId ss
  = (Normal tt,
     if knownAndLocatable (looked planetId).1
     then refreshedSession (GetPlanetById planetId :: planetReads ledger planetId)
            (hardRefreshed ledger planetId (looked planetId).2)
            [EmitPlanetUpdate] ss
     else refreshedSession [] (looked planetId).2 [] ss)
  /\ ArrivalQueued_listener ledger now arrivalId fromId toId ss
     = (Normal tt,
        if knownAndLocatable (looked toId).1
        then refreshedSession
               (GetAllArrivals [fromId; toId] :: bulkReads [fromId; toId])
               (bulkRefreshed ledger [fromId; toId] (looked toId).2)
               [EmitPlanetUpdate] ss
        else refreshedSession [] (looked toId).2 [] ss).
Proof.
  intros looked. subst looked. cbv beta.
  unfold PlanetUpdate_listener, ArrivalQueued_listener.
  rewrite !bind_run_session, !liftManager_run, !storeGet_run.
  cbn [fst snd].
  split.
  - destruct (knownAndLocatable _).
    + rewrite bind_run_session, liftManager_run, hardRefreshPlanet_run.
      destruct ss as [[] ? ?]. run_session.
      rewrite ?app_nil_r. reflexivity.
    + destruct ss as [[] ? ?]. run_session. rewrite ?app_nil_r. reflexivity.
  - destruct (knownAndLocatable _).
    + rewrite bind_run_session, liftManager_run, bulkHardRefreshPlanets_run.
      destruct ss as [[] ? ?]. run_session.
      rewrite ?app_nil_r. reflexivity.
    + destruct ss as [[] ? ?]. run_session. rewrite ?app_nil_r. reflexivity.
Qed.

(** X15. The listeners of [LocationRevealed] and [ArtifactUpdate] refresh
    whatever the local map holds: the planet or the artifact is read from
    the ledger and the event is emitted after the read, also for an id that
    the ledger does not know, in which case the store is left as it was. *)
Theorem reveal_and_artifact_events_always_refresh ledger planetId revealer
    artifactId (ss : Ss) :
  LocationRevealed_listener ledger planetId revealer ss
  = (Normal tt,
     refreshedSession (GetPlanetById planetId :: planetReads ledger planetId)
       (hardRefreshed ledger planetId (entityStore (manager ss)))
       [EmitPlanetUpdate] ss)
  /\ ArtifactUpdate_listener ledger artifactId ss
     = (Normal tt,
        refreshedSession [GetArtifactById artifactId]
          (artifactRefreshed ledger artifactId (entityStore (manager ss)))
          [EmitArtifactUpdate artifactId] ss)
  /\ (l_planet ledger planetId = None ->
      hardRefreshed ledger planetId (entityStore (manager ss))
      = entityStore (manager ss))
  /\ (l_artifact ledger artifactId = None ->
      artifactRefreshed ledger artifactId (entityStore (manager ss))
      = entityStore (manager ss)).
Proof.
  unfold LocationRevealed_listener, ArtifactUpdate_listener.
  rewrite !bind_run_session, !liftManager_run, hardRefreshPlanet_run,
    hardRefreshArtifact_run.
  repeat match goal with |- _ /\ _ => split end.
  - destruct ss as [[] ? ?]. run_session. reflexivity.
  - destruct ss as [[] ? ?]. run_session. reflexivity.
  - intros Hnone. unfold hardRefreshed. by rewrite Hnone.
  - intros Hnone. unfold artifactRefreshed. by rewrite Hnone.
Qed.

(** X16. When a planet is transferred, the planet is refreshed from the
    ledger, and the player is notified of a received planet exactly when the
    new owner is the account of this manager and the store knows the planet
    after the refresh; the notification carries the planet as the store
    returns it then. *)
Theorem PlanetTransferred_notifies_the_new_owner ledger now planetId newOwner
    (ss : Ss) :
  let refreshed := hardRefreshed ledger planetId (entityStore (manager ss)) in
  let planetAfter :=
    if truthy planetId then es_getPlanetWithId now planetId true refreshed
    else (None, refreshed) in
  PlanetTransferred_listener ledger now planetId newOwner ss
  = (Normal tt,
     refreshedSession (GetPlanetById planetId :: planetReads ledger planetId)
       planetAfter.2
       (match planetAfter.1 with
        | Some planet =>
            if bool_decide (Some newOwner = account (manager ss))
            then [ReceivedPlanet planet]
            else []
        | None => []
        end) ss).
Proof.
  intros refreshed planetAfter. subst refreshed planetAfter.
  unfold PlanetTransferred_listener.
  rewrite !bind_run_session, !liftManager_run, hardRefreshPlanet_run.
  cbn [fst snd]. rewrite bind_run_session, liftManager_run.
  unfold getPlanetWithId.
  destruct ss as [[g acc pl hr wr mm term cd ls cs sch] sg sb].
  destruct (truthy planetId).
  - rewrite storeGet_run. run_session.
    destruct (es_getPlanetWithId now planetId true
                (hardRefreshed ledger planetId g)) as [p g'].
    cbn [fst snd].
    destruct p as [p|]; [destruct (bool_decide _)|]; run_session;
      rewrite ?app_nil_r; reflexivity.
  - run_session. rewrite ?app_nil_r. reflexivity.
Qed.

(** *** The radius of the world and the miner *)


(** X18. [initMiningManager] creates the miner once: in a manager without a
    miner it creates one with a spiral around the home coordinates and the
    radius that the world has then, and sets its cores; in a manager with a
    miner it does nothing, so a second call changes nothing.  Before it,
    [startExplore] does not reach any miner; after it, it does. *)
Theorem initMiningManager_once homeCoords otherCoords (ss : Ss) :
  let ss' := exec (initMiningManager homeCoords) ss in
  result (initMiningManager homeCoords) ss = Normal tt
  /\ is_Some (minerManager (manager ss'))
  /\ initMiningManager otherCoords ss' = (Normal tt, ss')
  /\ newCalls (manager ss') (exec startExplore (manager ss'))
     = [CMiner MStartExplore]
  /\ match minerManager (manager ss) with
     | Some _ => ss' = ss
     | None =>
         signals ss'
         = signals ss
           ++ [(length (calls (manager ss)),
                CreateMiner (SpiralPattern homeCoords MIN_CHUNK_SIZE)
                  (worldRadius (manager ss)));
               (length (calls (manager ss)), MinerSetCores)]
         /\ manager ss' = set_minerManager (Some MinerManagerHandle) (manager ss)
         /\ exec startExplore (manager ss) = manager ss
     end.
Proof.
  intros ss'. subst ss'.
  destruct ss as [[g acc pl hr wr mm term cd ls cs sch] sg sb].
  unfold initMiningManager, startExplore.
  destruct mm as [[]|]; run_session; rewrite ?drop_app_length;
    repeat split; try reflexivity; try (by eexists).
  rewrite <- app_assoc. reflexivity.
Qed.

(** *** Many chunks at once *)

Lemma knownOnLedger_addLocations (g : G) (added locations : list WorldLocation) :
  AddLocationKeepsContract ->
  knownOnLedger (addLocations g added) locations = knownOnLedger g locations.
Proof.
  intros Hlaw. revert g. induction added as [|l added IH]; intros g; [done|].
  cbn [addLocations foldl]. fold (addLocations (es_addPlanetLocation l g) added).
  rewrite IH. by apply knownOnLedger_add.
Qed.

Lemma knownOnLedger_app (g : G) (l l' : list WorldLocation) :
  knownOnLedger g (l ++ l') = knownOnLedger g l ++ knownOnLedger g l'.
Proof. unfold knownOnLedger. apply List.filter_app. Qed.

Lemma addLocations_app (g : G) (l l' : list WorldLocation) :
  addLocations g (l ++ l') = addLocations (addLocations g l) l'.
Proof. unfold addLocations. apply foldl_app. Qed.

Lemma bulkAddNewChunks_body_run (l : WorldLocation) (s : St) :
  bulkAddNewChunks_body l s
  = (Normal (if es_isPlanetInContract (loc_hash l)
                  (es_addPlanetLocation l (entityStore s))
             then [loc_hash l] else []),
     set_entityStore (es_addPlanetLocation l (entityStore s)) s).
Proof. destruct s. reflexivity. Qed.

Lemma bulkAddNewChunks_locations (locations : list WorldLocation) (s : St) :
  AddLocationKeepsContract ->
  exists pushed,
    mapM bulkAddNewChunks_body locations s
    = (Normal pushed,
       set_entityStore (addLocations (entityStore s) locations) s)
    /\ concat pushed = loc_hash <$> knownOnLedger (entityStore s) locations.
Proof.
  intros Hlaw. revert s.
  induction locations as [|l locations IH]; intros s; cbn [mapM].
  - exists []. split; [by destruct s|done].
  - destruct (IH (set_entityStore (es_addPlanetLocation l (entityStore s)) s))
      as (pushed & Hrun & Hpushed).
    replace (entityStore (set_entityStore (es_addPlanetLocation l (entityStore s)) s))
      with (es_addPlanetLocation l (entityStore s)) in * by (by destruct s).
    eexists. rewrite bind_run, bulkAddNewChunks_body_run, bind_run, Hrun.
    split; [by destruct s|].
    cbn [concat]. rewrite Hpushed.
    rewrite (Hlaw l (loc_hash l)), (knownOnLedger_add l _ _ Hlaw).
    change (knownOnLedger (entityStore s) (l :: locations))
      with (if es_isPlanetInContract (loc_hash l) (entityStore s)
            then l :: knownOnLedger (entityStore s) locations
            else knownOnLedger (entityStore s) locations).
    by destruct (es_isPlanetInContract (loc_hash l) (entityStore s)).
Qed.

Lemma bulkAddNewChunks_chunk_run (c : Chunk) (s : St) :
  AddLocationKeepsContract ->
  bulkAddNewChunks_chunk c s
  = (Normal (loc_hash <$> knownOnLedger (entityStore s) (planetLocations c)),
     set_calls (calls s ++ [CChunkStore (AddChunk c true)])
       (set_entityStore (addLocations (entityStore s) (planetLocations c)) s)).
Proof.
  intros Hlaw. unfold bulkAddNewChunks_chunk.
  rewrite bind_run. cbn [call modify].
  destruct (bulkAddNewChunks_locations (planetLocations c)
              (set_calls (calls s ++ [CChunkStore (AddChunk c true)]) s)
              Hlaw) as (ids & Hids & Hconcat).
  rewrite bind_run, Hids. cbn [mret M_ret]. rewrite Hconcat.
  by destruct s.
Qed.

Lemma bulkAddNewChunks_chunks (chunks : list Chunk) (s : St) :
  AddLocationKeepsContract ->
  exists pushed,
    mapM bulkAddNewChunks_chunk chunks s
    = (Normal pushed,
       set_calls
         (calls s ++ ((fun c => CChunkStore (AddChunk c true)) <$> chunks))
         (set_entityStore
            (addLocations (entityStore s) (chunks ≫= planetLocations)) s))
    /\ concat pushed = idsOnLedger (entityStore s) chunks.
Proof.
  intros Hlaw. revert s.
  induction chunks as [|c chunks IH]; intros s; cbn [mapM].
  - exists []. split; [|done]. destruct s; simpl_state.
    cbn. unfold M_ret. by rewrite app_nil_r.
  - rewrite bind_run, (bulkAddNewChunks_chunk_run c s Hlaw). cbv beta iota.
    rewrite bind_run.
    match goal with
    | |- context [mapM bulkAddNewChunks_chunk chunks ?s1] =>
        destruct (IH s1) as (pushed & Hrun & Hpushed)
    end.
    exists ((loc_hash <$> knownOnLedger (entityStore s) (planetLocations c))
            :: pushed).
    rewrite Hrun. split.
    + destruct s; simpl_state. cbn [mret M_ret mbind list_bind fmap list_fmap].
      rewrite addLocations_app, <- app_assoc. reflexivity.
    + cbn [concat]. rewrite Hpushed. unfold idsOnLedger.
      destruct s; simpl_state.
      cbn [mbind list_bind]. rewrite knownOnLedger_app, fmap_app.
      by rewrite (knownOnLedger_addLocations _ _ _ Hlaw).
Qed.

Lemma readsIn_locations (locations : list WorldLocation) :
  readsIn ((fun l => CRead (GetPlanetById (loc_hash l))) <$> locations)
  = GetPlanetById <$> (loc_hash <$> locations).
Proof.
  induction locations as [|l locations IH]; [done|].
  cbn [fmap list_fmap]. cbn [fmap list_fmap] in IH.
  change (readsIn (CRead ?r :: ?l)) with (r :: readsIn l).
  by rewrite IH.
Qed.

Lemma addNewChunk_chunks (chunks : list Chunk) (s : St) :
  AddLocationKeepsContract ->
  exists made,
    forM_ chunks addNewChunk s
    = (Normal tt,
       set_scheduled (scheduled s ++ idsOnLedger (entityStore s) chunks)
         (set_calls (calls s ++ made)
            (set_entityStore
               (addLocations (entityStore s) (chunks ≫= planetLocations)) s)))
    /\ readsIn made = GetPlanetById <$> idsOnLedger (entityStore s) chunks.
Proof.
  intros Hlaw. revert s.
  induction chunks as [|c chunks IH]; intros s; cbn [forM_].
  - exists []. split; [|done]. destruct s; simpl_state.
    cbn. unfold M_ret, idsOnLedger. cbn. by rewrite !app_nil_r.
  - rewrite bind_run. unfold addNewChunk at 1. rewrite bind_run.
    cbn [call modify]. rewrite (addNewChunk_loop _ _ Hlaw). cbv beta iota.
    match goal with
    | |- context [forM_ chunks addNewChunk ?s1] =>
        destruct (IH s1) as (made & Hrun & Hmade)
    end.
    exists (CChunkStore (AddChunk c true)
            :: ((fun l => CRead (GetPlanetById (loc_hash l)))
                  <$> knownOnLedger (entityStore s) (planetLocations c))
            ++ made).
    rewrite Hrun. split.
    + destruct s; simpl_state. cbn [mbind list_bind].
      rewrite addLocations_app. unfold idsOnLedger. cbn [mbind list_bind].
      rewrite knownOnLedger_app, fmap_app,
        (knownOnLedger_addLocations _ _ _ Hlaw).
      rewrite <- !app_assoc. reflexivity.
    + match goal with
      | |- readsIn (?x :: ?l) = _ => change (readsIn (x :: l)) with (readsIn l)
      end.
      rewrite readsIn_app, Hmade, readsIn_locations. unfold idsOnLedger.
      destruct s; simpl_state. cbn [mbind list_bind].
      rewrite knownOnLedger_app, !fmap_app,
        (knownOnLedger_addLocations _ _ _ Hlaw).
      reflexivity.
Qed.

Lemma terminalPrintln_run (text : string) (ss : Ss) :
  terminalPrintln text ss
  = (Normal tt,
     {| manager := manager ss;
        signals := signals ss
                   ++ (if terminal (manager ss)
                       then [(length (calls (manager ss)), TerminalPrintln text)]
                       else []);
        scheduledBulk := scheduledBulk ss |}).
Proof.
  destruct ss as [[g acc pl hr wr mm term cd ls cs sch] sg sb].
  destruct term; run_session; rewrite ?app_nil_r; reflexivity.
Qed.

Lemma readsIn_chunk_calls (chunks : list Chunk) :
  readsIn ((fun c => CChunkStore (AddChunk c true)) <$> chunks) = [].
Proof. induction chunks as [|c chunks IH]; [done|exact IH]. Qed.

(** X19. Importing chunks in bulk leaves the entity store as adding them one
    by one does, and starts a refresh for the same planets, those whose id
    is known on the ledger; but it asks the ledger once for all of them
    where [addNewChunk] asks once per planet.  The bulk refresh is started
    without being awaited, also when no planet needs one; when it goes on,
    the store is the bulk refresh of those planets. *)
Theorem bulkAddNewChunks_like_addNewChunk ledger chunks (ss : Ss) :
  AddLocationKeepsContract ->
  let s := manager ss in
  let ids := idsOnLedger (entityStore s) chunks in
  let bulk := exec (bulkAddNewChunks chunks) ss in
  let oneByOne := exec (forM_ chunks addNewChunk) s in
  result (bulkAddNewChunks chunks) ss = Normal tt
  /\ result (forM_ chunks addNewChunk) s = Normal tt
  /\ entityStore (manager bulk) = entityStore oneByOne
  /\ entityStore oneByOne
     = addLocations (entityStore s) (chunks ≫= planetLocations)
  /\ scheduledBulk bulk = scheduledBulk ss ++ [ids]
  /\ scheduled oneByOne = scheduled s ++ ids
  /\ readsIn (newCalls s (manager bulk)) = [GetAllArrivals ids]
  /\ readsIn (newCalls s oneByOne) = GetPlanetById <$> ids
  /\ (scheduledBulk ss = [] ->
      entityStore (manager (exec (resumeScheduledBulk ledger) bulk))
      = bulkRefreshed ledger ids (entityStore oneByOne)).
Proof.
  intros Hlaw s ids bulk oneByOne. subst s ids bulk oneByOne.
  destruct (addNewChunk_chunks chunks (manager ss) Hlaw)
    as (made & Hone & Hmade).
  destruct (bulkAddNewChunks_chunks chunks (manager ss) Hlaw)
    as (pushed & Hbulk & Hpushed).
  unfold bulkAddNewChunks, scheduleBulk, bulkHardRefreshPlanets_start,
    resumeScheduledBulk, exec, result.
  rewrite Hone.
  repeat (first [ rewrite Hbulk | rewrite Hpushed | rewrite bind_run_session
                | rewrite terminalPrintln_run | rewrite liftManager_run ];
          cbv beta iota;
          cbn [manager signals scheduledBulk call modify fst snd]).
  set (ids := idsOnLedger (entityStore (manager ss)) chunks).
  destruct ss as [[g acc pl hr wr mm term cd ls cs sch] sg sb].
  cbn [manager signals scheduledBulk gets modify fst snd].
  simpl_state. unfold newCalls. simpl_state.
  rewrite <- !app_assoc, !drop_app_length, !readsIn_app, Hmade,
    readsIn_chunk_calls.
  repeat match goal with |- _ /\ _ => split end; try reflexivity.
  cbn [manager] in ids. intros ->. cbn [app].
  rewrite bind_run_session. cbn [modify]. rewrite liftManager_run.
  cbn [manager fst snd].
  rewrite bulkHardRefreshPlanets_resume_run. reflexivity.
Qed.

(** *** Hats and transfers *)

Ltac unfold_session_methods :=
  cbv [buyHat transferOwnership planetNotFound checkGameHasEnded setItem
       accountKey buyHat_submit transferOwnership_submit submitIntent
       catchIntentFail onTxIntentFail handleTxIntent intent_type settled].

(** X20. Within the game, [buyHat] looks the planet up by its location.
    When the store has no location for the id, or no planet at that
    location, the error is reported on the console and on the terminal and
    nothing else happens: no entry in [localStorage], no intent, no write.
    Otherwise the ledger is asked for a hat with the level that the planet
    has now, [localStorage] notes the next level, and the intent is
    recorded, and cleared again if the write is rejected. *)
Theorem buyHat_spec now actionId planetId written (ss : Ss) :
  pastEndTime now = false ->
  let s := manager ss in
  let ss' := exec (buyHat now actionId planetId written) ss in
  let txIntent := UnconfirmedBuyHat actionId planetId in
  let notFound g :=
    manager ss' = set_calls (calls s ++ [CConsoleError "planet not found"])
                    (set_entityStore g s)
    /\ signals ss'
       = signals ss
         ++ (if terminal s
             then [(S (length (calls s)),
                    TerminalPrintln "[TX ERROR] Planet not found")]
             else []) in
  result (buyHat now actionId planetId written) ss = Normal tt
  /\ match es_getLocationOfPlanet planetId (entityStore s) with
     | None => notFound (entityStore s)
     | Some planetLoc =>
         match es_getPlanetWithLocation now planetLoc (entityStore s) with
         | (None, g) => notFound g
         | (Some planet, g) =>
             List.filter is_write (newCalls s (manager ss'))
             = [CWrite (WBuyHat planetId (hatLevel planet) actionId)]
             /\ localStorage (manager ss')
                = <[keyOf s "hatLevel" := pretty (hatLevel planet + 1)]>
                    (<[keyOf s "hatPlanet" := planetId]> (localStorage s))
             /\ entityStore (manager ss')
                = settled txIntent written (es_onTxIntent txIntent g)
             /\ signals ss' = signals ss
         end
     end.
Proof.
  intros Hend s ss' txIntent notFound. subst s ss' txIntent notFound.
  destruct ss as [[g acc pl hr wr mm term cd ls cs sch] sg sb].
  cbn [manager entityStore].
  destruct (es_getLocationOfPlanet planetId g) as [planetLoc|] eqn:Hloc.
  - destruct (es_getPlanetWithLocation now planetLoc g) as [[planet|] g']
      eqn:Hplanet;
      unfold_session_methods; rewrite Hend; destruct term, written;
      run_session; rewrite Hloc; run_session; rewrite Hplanet; run_session;
      rewrite <- ?app_assoc, ?drop_app_length, ?length_app, ?Nat.add_1_r,
        ?app_nil_r;
      repeat split; reflexivity.
  - unfold_session_methods; rewrite Hend; destruct term;
      run_session; rewrite Hloc; run_session;
      rewrite ?length_app, ?Nat.add_1_r, ?app_nil_r;
      repeat split; reflexivity.
Qed.

(** X21. [transferOwnership] with [bypassChecks] sends its write at any
    time and without looking at the planet.  Without [bypassChecks] it
    sends nothing after the end of the game, and within the game it sends
    nothing for an id without a location in the store, which it reports on
    the console; [localStorage] and the entity store stay as they were. *)
Theorem transferOwnership_spec now actionId planetId newOwner written
    (ss : Ss) :
  let s := manager ss in
  let txIntent := UnconfirmedPlanetTransfer actionId planetId newOwner in
  let after bypassChecks :=
    manager (exec (transferOwnership now actionId planetId newOwner
                     bypassChecks written) ss) in
  (List.filter is_write (newCalls s (after true))
   = [CWrite (WTransferOwnership planetId newOwner actionId)]
   /\ entityStore (after true)
      = settled txIntent written (es_onTxIntent txIntent (entityStore s)))
  /\ (pastEndTime now = true ->
      List.filter is_write (newCalls s (after false)) = []
      /\ entityStore (after false) = entityStore s
      /\ localStorage (after false) = localStorage s)
  /\ (pastEndTime now = false ->
      es_getLocationOfPlanet planetId (entityStore s) = None ->
      newCalls s (after false) = [CConsoleError "planet not found"]
      /\ entityStore (after false) = entityStore s
      /\ localStorage (after false) = localStorage s).
Proof.
  intros s txIntent after. subst s txIntent after.
  destruct ss as [[g acc pl hr wr mm term cd ls cs sch] sg sb].
  cbn [manager entityStore].
  repeat match goal with |- _ /\ _ => split end.
  - unfold_session_methods. destruct term, written; run_session;
      rewrite <- ?app_assoc, ?drop_app_length; reflexivity.
  - unfold_session_methods. destruct term, written; run_session;
      reflexivity.
  - intros Hend. unfold_session_methods. rewrite Hend.
    destruct term; run_session; rewrite ?drop_app_length, ?drop_all;
      repeat split; reflexivity.
  - intros Hend Hloc. unfold_session_methods. rewrite Hend.
    destruct term; run_session; rewrite Hloc; run_session;
      rewrite ?drop_app_length; repeat split; reflexivity.
Qed.

(** *** Refreshes that were started and confirmations *)






(** *** Who sends transactions *)

Lemma Quiet_ret {A} (a : A) : Quiet (mret a : M St A).
Proof. intros s. exists []. by rewrite app_nil_r. Qed.

Lemma Quiet_throw {A} (e : Error) : Quiet (throw e : M St A).
Proof. intros s. exists []. by rewrite app_nil_r. Qed.

Lemma Quiet_gets {A} (h : St -> A) : Quiet (gets h : M St A).
Proof. intros s. exists []. by rewrite app_nil_r. Qed.

Lemma Quiet_bind {A A'} (m : M St A) (k : A -> M St A') :
  Quiet m -> (forall a, Quiet (k a)) -> Quiet (m ≫= k).
Proof.
  intros Hm Hk s. unfold exec. rewrite bind_run.
  destruct (Hm s) as (l & Hl & Hq). unfold exec in Hl.
  destruct (m s) as [[a|e] s1]; cbn [snd] in *; [|by exists l].
  destruct (Hk a s1) as (l' & Hl' & Hq'). unfold exec in Hl'.
  exists (l ++ l'). rewrite Hl', Hl, app_assoc. split; [done|].
  by apply Forall_app.
Qed.

Lemma Quiet_forM {A} (l : list A) (body : A -> M St unit) :
  (forall a, Quiet (body a)) -> Quiet (forM_ l body).
Proof.
  intros Hbody. induction l as [|a l IH]; cbn [forM_].
  - apply Quiet_ret.
  - apply Quiet_bind; auto.
Qed.

Lemma Quiet_call (c : Call) :
  is_write c = false -> is_snark c = false -> Quiet (call c : M St unit).
Proof.
  intros Hw Hs s. exists [c]. split; [by destruct s|].
  by apply Forall_singleton.
Qed.

Lemma Quiet_modify (h : St -> St) :
  (forall s, calls (h s) = calls s) -> Quiet (modify h : M St unit).
Proof. intros Hh s. exists []. rewrite app_nil_r. split; [apply Hh|done]. Qed.

Lemma Quiet_storeGet {A} (h : G -> A * G) : Quiet (storeGet h : M St A).
Proof.
  intros s. exists []. rewrite app_nil_r. split; [|done].
  unfold exec, storeGet. by destruct (h (entityStore s)).
Qed.

Ltac head_of t :=
  lazymatch t with
  | ?f _ => head_of f
  | _ => t
  end.

(** One step of the search for what a method adds to the log. *)
Ltac quiet_step :=
  lazymatch goal with
  | |- Quiet (mbind _ _) => apply Quiet_bind; [|intros ?]
  | |- Quiet (mret _) => apply Quiet_ret
  | |- Quiet (throw _) => apply Quiet_throw
  | |- Quiet (gets _) => apply Quiet_gets
  | |- Quiet (call _) => apply Quiet_call; reflexivity
  | |- Quiet (modify _) => apply Quiet_modify; intros ?; reflexivity
  | |- Quiet (storeGet _) => apply Quiet_storeGet
  | |- Quiet (forM_ _ _) => apply Quiet_forM; intros ?
  | |- Quiet (match ?x with _ => _ end) => destruct x
  | |- Quiet (let _ := _ in _) => cbv zeta
  | |- Quiet (let '(_, _) := ?x in _) => destruct x
  | |- Quiet ((fun _ => _) _) => cbv beta
  | |- Quiet ?m =>
      let h := head_of m in
      unfold h
  end.

Lemma Quiet_run (ev : Event) : isTransaction ev = false -> Quiet (run ev).
Proof.
  intros Hev. destruct ev; try discriminate Hev; cbn [run];
    repeat quiet_step.
Qed.

Lemma quiet_calls_filter (l : list Call) :
  Forall (fun c => is_write c = false /\ is_snark c = false) l ->
  List.filter (fun c => is_write c || is_snark c) l = [].
Proof.
  induction 1 as [|c l [Hw Hs] _ IH]; [done|].
  cbn [List.filter]. rewrite Hw, Hs. exact IH.
Qed.

(** X24. Only the methods that make a transaction send one: the listeners
    of the ledger's events, the listener of the miner, [addNewChunk], the
    refreshes it starts, the controls of the miner and the readers never
    write to the ledger and never ask for a proof, whatever the state and
    whatever the ledger answers. *)
Theorem only_transactions_send (ev : Event) (s : St) :
  isTransaction ev = false ->
  List.filter (fun c => is_write c || is_snark c) (newCalls s (step s ev))
  = [].
Proof.
  intros Hev. destruct (Quiet_run ev Hev s) as (l & Hl & Hq).
  unfold step, newCalls. rewrite Hl, drop_app_length.
  by apply quiet_calls_filter.
Qed.
End MoreProofs.

(** ** The additional theorems on the small world *)

Lemma revealLocation_cooldown_witness :
  pastEndTime duringTheGame = false
  /\ account quietState = Some "0xab"
  /\ fst (revealLocation duringTheGame "act2" "00a1" quietState) = Normal tt
  /\ newCalls quietState
       (snd (revealLocation duringTheGame "act2" "00a1" quietState))
     = [CSnark (GetRevealArgs 3 4)].
Proof.
  split; [reflexivity|]. split; [reflexivity|].
  set (looked := es_getPlanetWithId duringTheGame "00a1" true
                   (entityStore quietState)).
  destruct (revealLocation_cooldown duringTheGame "act2" "00a1" "0xab"
              (default homePlanet (fst looked)) (location_at 3 4 "00a1")
              (snd looked) quietState)
    as (next & _ & Hnext & Hrun);
    try reflexivity.
  rewrite Hrun, (Hnext eq_refl), Z.ltb_irrefl.
  split; reflexivity.
Defined.



Lemma no_submission_after_the_end_witness :
  pastEndTime afterTheEnd = true
  /\ sendsNothing (upgrade afterTheEnd "act4" "00a1" 1 (Resolved tt))
       quietState
  /\ sendsNothing
       (withdrawArtifact afterTheEnd "act4" "00a1" "art1" true (Resolved tt))
       quietState.
Proof.
  split; [reflexivity|].
  pose proof (no_submission_after_the_end afterTheEnd "act4" "00a1" "00d4"
                "art1" None 1 50 0 None true (Resolved tt) quietState
                eq_refl)
    as (_ & _ & Hupgrade & Hwithdraw & _).
  split; [exact Hupgrade | exact Hwithdraw].
Defined.

Lemma artifact_methods_validate_witness :
  pastEndTime duringTheGame = false
  /\ activateArtifact duringTheGame "act5" "00ff" "art1" None false
       (Resolved tt) quietState
     = (Thrown "tried to activate on an unknown planet", quietState).
Proof.
  split; [reflexivity|].
  pose proof (artifact_methods_validate duringTheGame "act5" "00ff" "art1"
                None (Resolved tt) None (entityStore quietState) quietState
                eq_refl eq_refl I)
    as (Hactivate & _).
  exact Hactivate.
Defined.



Lemma bulkAddNewChunks_like_addNewChunk_witness :
  AddLocationKeepsContract (G := GameObjects)
  /\ readsIn (newCalls quietState
                (manager (exec (bulkAddNewChunks [demoChunk]) demoSession)))
     = [GetAllArrivals ["00a1"]]
  /\ readsIn (newCalls quietState
                (exec (forM_ [demoChunk] addNewChunk) quietState))
     = [GetPlanetById "00a1"].
Proof.
  split; [exact GameObjects_AddLocationKeepsContract|].
  pose proof (bulkAddNewChunks_like_addNewChunk demoLedger [demoChunk]
                demoSession GameObjects_AddLocationKeepsContract)
    as (_ & _ & _ & _ & _ & _ & Hbulk & Hone & _).
  split; [exact Hbulk | exact Hone].
Defined.

Lemma buyHat_spec_witness :
  pastEndTime duringTheGame = false
  /\ result (buyHat duringTheGame "act7" "00a1" (Resolved tt)) demoSession
     = Normal tt.
Proof.
  split; [reflexivity|].
  pose proof (buyHat_spec duringTheGame "act7" "00a1" (Resolved tt)
                demoSession eq_refl) as (Hresult & _).
  exact Hresult.
Defined.


Lemma only_transactions_send_witness :
  isTransaction
    (EvTxConfirmed demoLedger {| tx_intent := pendingReveal; txHash := "0x01" |})
  = false
  /\ List.filter (fun c => is_write c || is_snark c)
       (newCalls demoState
          (step demoState
             (EvTxConfirmed demoLedger
                {| tx_intent := pendingReveal; txHash := "0x01" |})))
     = [].
Proof.
  split; [reflexivity|].
  apply (only_transactions_send
           (EvTxConfirmed demoLedger
              {| tx_intent := pendingReveal; txHash := "0x01" |})
           demoState eq_refl).
Defined.
